(** * Scenario generation of the wargame simulator (src/data/wargame.py)

    A shallow embedding of [WargameSimulationData] and of the parts of
    Python, NumPy and pandas that its scenario-generation pipeline uses.

    - Python code that draws random numbers mutates NumPy's process-wide
      [RandomState] and may raise: it is embedded in a state-and-exception
      monad [py] over the generator state.
    - A Python [dict] is an insertion-ordered association list with
      distinct keys: the order of the keys decides the columns of the
      resulting [DataFrame].
    - A Python [float] is a binary64 number: a finite one is given by its
      exact rational value, and [+], [-] and [*] round the exact result to
      the nearest binary64 number, ties to even, with subnormals, overflow
      to infinity and NaN. A float literal of the source is the binary64
      number nearest to the decimal ([lit]). [Binary64] compares these
      operations with the primitive binary64 numbers of the prover.
    - NumPy's legacy generator is an interface ([RandomState]) with its
      documented contract ([RandomStateLaws]); [MT19937] implements it the
      way NumPy's [mt19937.c] and [distributions.c] do. *)

From Stdlib Require Import ZArith QArith Qpower Qround Lqa List String Bool Lia.
From Stdlib Require Floats Uint63.
Import ListNotations.
Open Scope string_scope.
Open Scope Z_scope.

(* ================================================================= *)
(** ** Python floats: binary64 *)

Definition pow2 (e : Z) : Q := (2 ^ e)%Q.

(** For [x > 0], the exponent [e] with [2^e <= x < 2^(e+1)]. *)
Definition floor_log2 (x : Q) : Z :=
  let e := Z.log2 (Qnum x) - Z.log2 (Zpos (Qden x)) in
  if Qle_bool (pow2 e) x then e else e - 1.

(** The integer nearest to [m], a tie going to the even one. *)
Definition round_half_even (m : Q) : Z :=
  let f := Qfloor m in
  match (m - inject_Z f ?= 1 # 2)%Q with
  | Lt => f
  | Eq => if Z.even f then f else f + 1
  | Gt => f + 1
  end.

(** The exponent of the unit in the last place at [x]: 53 bits of
    precision, and the subnormal spacing [2^-1074] below [2^-1022]. *)
Definition ulp_exponent (x : Q) : Z := Z.max (floor_log2 x - 52) (-1074).

(** [x >= 0] rounded to a multiple of its unit in the last place. *)
Definition round_magnitude (x : Q) : Q :=
  let q := ulp_exponent x in
  (inject_Z (round_half_even (x / pow2 q)) * pow2 q)%Q.

(** A binary64 number; a finite one by its exact value. The sign of zero
    is not kept: no operation of this program can tell the two zeros
    apart. *)
Inductive float : Type :=
| Finite (x : Q)
| Infinity (negative : bool)
| NaN.

(** A rounded magnitude of [2^1024] or more is an infinity. *)
Definition overflow (negative : bool) (a : Q) : float :=
  if Qle_bool (pow2 1024) a then Infinity negative
  else Finite (Qred (if negative then - a else a)).

(** Round to nearest, ties to even. *)
Definition round64 (x : Q) : float :=
  if 0 <=? Qnum x then overflow false (round_magnitude x)
  else overflow true (round_magnitude (- x)).

(** A literal of the source, [0.6] or [30]: the nearest binary64 number. *)
Definition lit (literal : Q) : float := round64 literal.

(** [a + b] *)
Definition fadd (a b : float) : float :=
  match a, b with
  | NaN, _ | _, NaN => NaN
  | Infinity s, Infinity t => if Bool.eqb s t then Infinity s else NaN
  | Infinity s, Finite _ | Finite _, Infinity s => Infinity s
  | Finite x, Finite y => round64 (x + y)
  end.

(** [- a] *)
Definition fopp (a : float) : float :=
  match a with
  | Finite x => Finite (- x)
  | Infinity s => Infinity (negb s)
  | NaN => NaN
  end.

(** [a - b] *)
Definition fsub (a b : float) : float := fadd a (fopp b).

(** [a * b] *)
Definition fmul (a b : float) : float :=
  match a, b with
  | NaN, _ | _, NaN => NaN
  | Infinity s, Infinity t => Infinity (xorb s t)
  | Infinity s, Finite x | Finite x, Infinity s =>
      if Qnum x =? 0 then NaN else Infinity (xorb s (Qnum x <? 0))
  | Finite x, Finite y => round64 (x * y)
  end.

(** [a <= b]; false when either is NaN. *)
Definition fle (a b : float) : bool :=
  match a, b with
  | NaN, _ | _, NaN => false
  | Infinity true, _ => true
  | _, Infinity false => true
  | Infinity false, _ => false
  | _, Infinity true => false
  | Finite x, Finite y => Qle_bool x y
  end.

(** [npy_isfinite] *)
Definition is_finite (a : float) : bool :=
  match a with
  | Finite _ => true
  | _ => false
  end.

(** [random_uniform] of [distributions.c]: [lower + range * next_double]. *)
Definition random_uniform (lower range u : float) : float :=
  fadd lower (fmul range u).

(** [low <= x <= high], as Python compares floats. *)
Definition within (iv : float * float) (x : float) : Prop :=
  fle (fst iv) x = true /\ fle x (snd iv) = true.

(** The interval between two literals. *)
Definition interval (low high : Q) : float * float := (lit low, lit high).

(** The formula of [uniform] at the samples 0 and 1 stays between the
    bounds, which are not negative and not reversed. *)
Definition endpoints_within (low high : float) : bool :=
  match low, fsub high low with
  | Finite l, Finite d =>
      Qle_bool 0 l && Qle_bool 0 d
      && fle low (random_uniform low (Finite d) (Finite 0))
      && fle (random_uniform low (Finite d) (Finite 1)) high
  | _, _ => false
  end.

(** A float that is zero, positive or plus infinity. *)
Definition nonnegative (a : float) : Prop :=
  match a with
  | Finite x => (0 <= x)%Q
  | Infinity negative => negative = false
  | NaN => False
  end.

(** The largest finite binary64 number. *)
Definition max_float : Q := ((2 - pow2 (-52)) * pow2 1023)%Q.

(* ================================================================= *)
(** ** Python values, exceptions and dictionaries *)

(** The scalars that are stored in the dictionaries of this program. *)
Inductive value : Type :=
| VInt (z : Z)
| VFloat (x : float)
| VStr (s : string).

Inductive exn : Type :=
| ValueError (msg : string)
| KeyError (key : string)
| OverflowError (msg : string).

Inductive result (A : Type) : Type :=
| Ok (a : A)
| Raise (e : exn).
Arguments Ok {A} a.
Arguments Raise {A} e.

Definition is_ok {A} (r : result A) : bool :=
  match r with Ok _ => true | Raise _ => false end.

(** [dict V]: keys in insertion order. *)
Definition dict (V : Type) : Type := list (string * V).

Fixpoint dict_get {V} (k : string) (d : dict V) : option V :=
  match d with
  | [] => None
  | (k', v) :: d' => if String.eqb k k' then Some v else dict_get k d'
  end.

(** [d[k] = v]: an existing key keeps its position, a new key goes last. *)
Fixpoint dict_set {V} (k : string) (v : V) (d : dict V) : dict V :=
  match d with
  | [] => [(k, v)]
  | (k', v') :: d' =>
      if String.eqb k k' then (k', v) :: d' else (k', v') :: dict_set k v d'
  end.

Definition keys {V} (d : dict V) : list string := map fst d.

(** [len(range(n))]: a negative bound gives the empty range. *)
Definition range_len (n : Z) : nat := Z.to_nat n.

(* ================================================================= *)
(** ** pandas: a [DataFrame] built from a list of records *)

(** A cell that no record filled is [None] (pandas stores NaN). *)
Record DataFrame : Type := {
  columns : list string;
  data : list (list (option value))
}.

Definition add_key (acc : list string) (k : string) : list string :=
  if existsb (String.eqb k) acc then acc else acc ++ [k].

(** Columns: the keys of the records in order of first appearance. *)
Definition union_keys (records : list (dict value)) : list string :=
  fold_left (fun acc d => fold_left add_key (keys d) acc) records [].

Definition pd_DataFrame (records : list (dict value)) : DataFrame :=
  let cols := union_keys records in
  {| columns := cols;
     data := map (fun d => map (fun c => dict_get c d) cols) records |}.

(** [len(df)] *)
Definition df_len (df : DataFrame) : nat := List.length (data df).

(** The rows as records, column name with cell ([df.to_dict('records')]). *)
Definition df_records (df : DataFrame) : list (dict (option value)) :=
  map (fun row => combine (columns df) row) (data df).

(** [df[c]]: one column, top to bottom; [None] when there is no such column. *)
Definition df_column (c : string) (df : DataFrame) : option (list (option value)) :=
  if existsb (String.eqb c) (columns df)
  then Some (map (fun r => match dict_get c r with Some cell => cell | None => None end)
                 (df_records df))
  else None.

(* ================================================================= *)
(** ** NumPy's legacy random generator *)

(** What the global [np.random] state offers to the sampling functions:
    seeding, [random_sample] and the bounded integer draw
    [random_bounded_uint64] (offset 0, masked rejection). *)
Class RandomState (S : Type) : Type := {
  legacy_seed : Z -> S;
  next_double : S -> float * S;
  bounded_uint64 : Z -> S -> Z * S
}.

(** The contract of the generator: [random_sample] is in [[0,1)] and the
    bounded draw for a range [rng] is in [[0, rng]]. *)
Record RandomStateLaws {S} (R : RandomState S) : Prop := {
  next_double_range :
    forall s, exists u, fst (next_double s) = Finite u /\ (0 <= u)%Q /\ (u < 1)%Q;
  bounded_uint64_range :
    forall rng s, 0 <= rng -> 0 <= fst (bounded_uint64 rng s) <= rng
}.

Section Wargame.

Context {S : Type} {R : RandomState S}.

(** Code that reads and advances the global generator and may raise. *)
Definition py (A : Type) : Type := S -> result A * S.

Definition ret {A} (a : A) : py A := fun s => (Ok a, s).

Definition raise {A} (e : exn) : py A := fun s => (Raise e, s).

(** Sequencing: an exception of [m] skips [k]; the draws [m] made stay made. *)
Definition bind {A B} (m : py A) (k : A -> py B) : py B :=
  fun s =>
    match m s with
    | (Ok a, s') => k a s'
    | (Raise e, s') => (Raise e, s')
    end.

Definition fmap {A B} (f : A -> B) (m : py A) : py B :=
  bind m (fun a => ret (f a)).

Notation "x <- m ;; k" := (bind m (fun x => k))
  (at level 100, m at next level, right associativity).

(** [d[k]] *)
Definition getitem {V} (k : string) (d : dict V) : py V :=
  match dict_get k d with
  | Some v => ret v
  | None => raise (KeyError k)
  end.

(** A dict display [{k1: e1, k2: e2, ...}]: the values are evaluated from
    left to right and stored in that order. *)
Fixpoint dict_display {V} (items : list (string * py V)) (acc : dict V)
  : py (dict V) :=
  match items with
  | [] => ret acc
  | (k, e) :: rest => v <- e ;; dict_display rest (dict_set k v acc)
  end.

(** [for _ in range(n): acc = body(acc)] *)
Fixpoint for_range {A} (n : nat) (body : A -> py A) (acc : A) : py A :=
  match n with
  | O => ret acc
  | Datatypes.S n' => acc' <- body acc ;; for_range n' body acc'
  end.

(** *** [np.random.seed], [uniform], [randint], [choice] *)

Definition np_random_seed (seed : Z) : py unit :=
  fun s =>
    if (seed <? 0) || (4294967295 <? seed)
    then (Raise (ValueError "Seed must be between 0 and 2**32 - 1"), s)
    else (Ok tt, legacy_seed seed).

(** The legacy [uniform(low, high)]: [fscale = fhigh - flow], an
    [OverflowError] when [fscale] is not finite, else [random_uniform];
    the bounds are not compared. *)
Definition uniform (low high : float) : py float :=
  let fscale := fsub high low in
  if is_finite fscale
  then fun s =>
         let (u, s') := next_double s in
         (Ok (random_uniform low fscale u), s')
  else raise (OverflowError "Range exceeds valid bounds").

Definition int64_min : Z := - 2 ^ 63.
Definition int64_max : Z := 2 ^ 63 - 1.

(** [randint(low, high)], dtype int64, on the half-open range. *)
Definition randint (low high : Z) : py Z :=
  let high' := high - 1 in
  if low <? int64_min then raise (ValueError "low is out of bounds for int64")
  else if int64_max <? high' then raise (ValueError "high is out of bounds for int64")
  else if high' <? low then raise (ValueError "low >= high")
  else fun s =>
    let (v, s') := bounded_uint64 (high' - low) s in
    (Ok (low + v), s').

(** [choice(a)] for a one-dimensional [a], with replacement and no weights. *)
Definition choice (a : list string) : py string :=
  match a with
  | [] => raise (ValueError "'a' cannot be empty unless no samples are taken")
  | x :: _ =>
      idx <- randint 0 (Z.of_nat (List.length a)) ;;
      ret (nth (Z.to_nat idx) a x)
  end.

(** *** [class WargameSimulationData] *)

Definition default_seed : Z := 42.
Definition default_num_scenarios : Z := 1000.

(** [__init__(self, seed=42)] *)
Definition init (seed : Z) : py unit := np_random_seed seed.

Definition generate_weapon_effectiveness : py (dict (dict float)) :=
  dict_display [
    ("tanks", dict_display [
       ("accuracy", uniform (lit 0.6) (lit 0.85));
       ("kill_probability", uniform (lit 0.4) (lit 0.7));
       ("operational_range_km", uniform (lit 30) (lit 60)) ] []);
    ("artillery", dict_display [
       ("accuracy", uniform (lit 0.5) (lit 0.75));
       ("kill_probability", uniform (lit 0.3) (lit 0.6));
       ("operational_range_km", uniform (lit 20) (lit 50)) ] []);
    ("fighter_jets", dict_display [
       ("accuracy", uniform (lit 0.7) (lit 0.9));
       ("kill_probability", uniform (lit 0.5) (lit 0.8));
       ("operational_range_km", uniform (lit 1500) (lit 3000)) ] []);
    ("cyber_attacks", dict_display [
       ("infrastructure_disruption_probability", uniform (lit 0.4) (lit 0.7));
       ("communication_system_compromise", uniform (lit 0.3) (lit 0.6));
       ("military_network_penetration", uniform (lit 0.2) (lit 0.5)) ] []);
    ("special_forces", dict_display [
       ("mission_success_probability", uniform (lit 0.4) (lit 0.7));
       ("strategic_target_elimination", uniform (lit 0.3) (lit 0.6)) ] [])
  ] [].

Definition generate_national_capabilities : py (dict (dict value)) :=
  dict_display [
    ("Nation_A", dict_display [
       ("military_personnel", fmap VInt (randint 500000 1200000));
       ("military_budget_billion_usd", fmap VFloat (uniform (lit 50) (lit 250)));
       ("technological_readiness", fmap VFloat (uniform (lit 0.6) (lit 0.9)));
       ("cyber_defense_capability", fmap VFloat (uniform (lit 0.4) (lit 0.8)));
       ("supply_chain_resilience", fmap VFloat (uniform (lit 0.5) (lit 0.9))) ] []);
    ("Nation_B", dict_display [
       ("military_personnel", fmap VInt (randint 400000 1000000));
       ("military_budget_billion_usd", fmap VFloat (uniform (lit 40) (lit 200)));
       ("technological_readiness", fmap VFloat (uniform (lit 0.5) (lit 0.85)));
       ("cyber_defense_capability", fmap VFloat (uniform (lit 0.3) (lit 0.7)));
       ("supply_chain_resilience", fmap VFloat (uniform (lit 0.4) (lit 0.8))) ] [])
  ] [].

(** [weapon_effectiveness[category][metric]] *)
Definition metric (weapon_effectiveness : dict (dict float))
    (category name : string) : py value :=
  m <- getitem category weapon_effectiveness ;;
  fmap VFloat (getitem name m).

(** The dict display of one loop iteration (lines 94 to 124). *)
Definition scenario (weapon_effectiveness : dict (dict float))
  : py (dict value) :=
  dict_display [
    ("cyber_conflict_probability", fmap VFloat (uniform (lit 0.2) (lit 0.5)));
    ("conventional_war_probability", fmap VFloat (uniform (lit 0.3) (lit 0.6)));
    ("limited_engagement_probability", fmap VFloat (uniform (lit 0.1) (lit 0.4)));
    ("initial_aggressor", fmap VStr (choice ["Nation_A"; "Nation_B"]));
    ("conflict_duration_days", fmap VFloat (uniform (lit 30) (lit 180)));
    ("tank_effectiveness_A", metric weapon_effectiveness "tanks" "kill_probability");
    ("artillery_effectiveness_A", metric weapon_effectiveness "artillery" "kill_probability");
    ("jet_effectiveness_A", metric weapon_effectiveness "fighter_jets" "kill_probability");
    ("tank_effectiveness_B", metric weapon_effectiveness "tanks" "kill_probability");
    ("artillery_effectiveness_B", metric weapon_effectiveness "artillery" "kill_probability");
    ("jet_effectiveness_B", metric weapon_effectiveness "fighter_jets" "kill_probability");
    ("cyber_disruption_potential_A",
       metric weapon_effectiveness "cyber_attacks" "infrastructure_disruption_probability");
    ("cyber_disruption_potential_B",
       metric weapon_effectiveness "cyber_attacks" "infrastructure_disruption_probability");
    ("estimated_military_casualties_A", fmap VFloat (uniform (lit 5000) (lit 100000)));
    ("estimated_military_casualties_B", fmap VFloat (uniform (lit 5000) (lit 100000)));
    ("estimated_civilian_casualties", fmap VFloat (uniform (lit 10000) (lit 250000)));
    ("economic_damage_billion_usd", fmap VFloat (uniform (lit 50) (lit 500)))
  ] [].

(** The loop of lines 93 to 125, a closure over the two local variables
    [weapon_effectiveness] and [national_capabilities]. *)
Definition scenario_loop (weapon_effectiveness : dict (dict float))
    (national_capabilities : dict (dict value)) (num_scenarios : Z)
    (scenarios : list (dict value)) : py (list (dict value)) :=
  for_range (range_len num_scenarios)
    (fun scenarios =>
       scenario <- scenario weapon_effectiveness ;;
       ret (scenarios ++ [scenario])%list)
    scenarios.

Definition generate_conflict_scenarios (num_scenarios : Z) : py DataFrame :=
  let scenarios := [] in
  weapon_effectiveness <- generate_weapon_effectiveness ;;
  national_capabilities <- generate_national_capabilities ;;
  scenarios <- scenario_loop weapon_effectiveness national_capabilities
                 num_scenarios scenarios ;;
  ret (pd_DataFrame scenarios).

(** Lines 198 and 199: construct the generator, then generate. *)
Definition simulate (seed num_scenarios : Z) : py DataFrame :=
  _ <- init seed ;;
  generate_conflict_scenarios num_scenarios.

End Wargame.

Notation "x <- m ;; k" := (bind m (fun x => k))
  (at level 100, m at next level, right associativity).

(* ================================================================= *)
(** ** The generator behind [np.random]: MT19937 *)

Module MT19937.

Definition RK_STATE_LEN : nat := 624.
Definition N : nat := 624.
Definition M : nat := 397.
Definition MATRIX_A : Z := 0x9908b0df.
Definition UPPER_MASK : Z := 0x80000000.
Definition LOWER_MASK : Z := 0x7fffffff.

(** A value stored in a [uint32_t]. *)
Definition u32 (z : Z) : Z := Z.land z 0xffffffff.

Record mt19937_state : Type := {
  key : list Z;
  pos : nat
}.

(** The loop of [mt19937_seed]: [key[pos] = seed], then the next [seed]. *)
Fixpoint seed_fill (n : nat) (pos : Z) (seed : Z) : list Z :=
  match n with
  | O => []
  | S n' =>
      seed :: seed_fill n' (pos + 1)
                (u32 (1812433253 * Z.lxor seed (Z.shiftr seed 30) + pos + 1))
  end.

Definition mt19937_seed (seed : Z) : mt19937_state :=
  {| key := seed_fill RK_STATE_LEN 0 (u32 seed); pos := RK_STATE_LEN |}.

(** [key[i] = v] *)
Definition store (i : nat) (v : Z) (key : list Z) : list Z :=
  firstn i key ++ v :: skipn (S i) key.

(** [(y >> 1) ^ (-(y & 1) & MATRIX_A)] *)
Definition twist (y : Z) : Z :=
  Z.lxor (Z.shiftr y 1) (if Z.testbit y 0 then MATRIX_A else 0).

(** One iteration of [mt19937_gen], in place: the three loops of the C
    code read [key[i + 1]] and [key[i + M]] with the indices that wrap
    around at [N]. *)
Definition gen_step (key : list Z) (i : nat) : list Z :=
  let y := Z.lor (Z.land (nth i key 0) UPPER_MASK)
                 (Z.land (nth (Nat.modulo (i + 1) N) key 0) LOWER_MASK) in
  store i (Z.lxor (nth (Nat.modulo (i + M) N) key 0) (twist y)) key.

Definition mt19937_gen (st : mt19937_state) : mt19937_state :=
  {| key := fold_left gen_step (seq 0 N) (key st); pos := 0 |}.

Definition temper (y : Z) : Z :=
  let y := Z.lxor y (Z.shiftr y 11) in
  let y := Z.lxor y (Z.land (Z.shiftl y 7) 0x9d2c5680) in
  let y := Z.lxor y (Z.land (Z.shiftl y 15) 0xefc60000) in
  Z.lxor y (Z.shiftr y 18).

Definition mt19937_next (st : mt19937_state) : Z * mt19937_state :=
  let st := if Nat.leb RK_STATE_LEN (pos st) then mt19937_gen st else st in
  (u32 (temper (nth (pos st) (key st) 0)),
   {| key := key st; pos := S (pos st) |}).

Definition mt19937_next64 (st : mt19937_state) : Z * mt19937_state :=
  let (hi, st) := mt19937_next st in
  let (lo, st) := mt19937_next st in
  (Z.lor (Z.shiftl hi 32) lo, st).

(** [(a * 67108864.0 + b) / 9007199254740992.0] with [a], [b] the top 27
    and 26 bits of two words: exact in binary64, and exact here. *)
Definition mt19937_next_double (st : mt19937_state) : float * mt19937_state :=
  let (a, st) := mt19937_next st in
  let (b, st) := mt19937_next st in
  (Finite (Qmake (Z.shiftr a 5 * 67108864 + Z.shiftr b 6) 9007199254740992), st).

(** Smallest bit mask [>= max]. *)
Definition gen_mask (max : Z) : Z :=
  let mask := max in
  let mask := Z.lor mask (Z.shiftr mask 1) in
  let mask := Z.lor mask (Z.shiftr mask 2) in
  let mask := Z.lor mask (Z.shiftr mask 4) in
  let mask := Z.lor mask (Z.shiftr mask 8) in
  let mask := Z.lor mask (Z.shiftr mask 16) in
  let mask := Z.lor mask (Z.shiftr mask 32) in
  mask.

(** [while ((val = (next(state) & mask)) > rng);] run for at most [fuel]
    draws; [None] when every one of them was rejected. *)
Fixpoint bounded_masked (next : mt19937_state -> Z * mt19937_state)
    (fuel : nat) (rng mask : Z) (st : mt19937_state)
  : option (Z * mt19937_state) :=
  match fuel with
  | O => None
  | S fuel' =>
      let (w, st') := next st in
      let val := Z.land w mask in
      if rng <? val then bounded_masked next fuel' rng mask st'
      else Some (val, st')
  end.

(** The C loop has no bound; a draw is accepted with probability above
    one half, and the model gives up (and answers 0) after this many
    rejections in a row. *)
Definition rejection_fuel : nat := 4096.

Definition masked_or_zero (r : option (Z * mt19937_state))
    (st : mt19937_state) : Z * mt19937_state :=
  match r with
  | Some vs => vs
  | None => (0, st)
  end.

(** [random_bounded_uint64] with offset 0 and [use_masked]. *)
Definition random_bounded_uint64 (rng : Z) (st : mt19937_state)
  : Z * mt19937_state :=
  if rng =? 0 then (0, st)
  else if rng <=? 0xFFFFFFFF then
    if rng =? 0xFFFFFFFF then mt19937_next st
    else masked_or_zero
           (bounded_masked mt19937_next rejection_fuel rng (gen_mask rng) st) st
  else if rng =? 0xFFFFFFFFFFFFFFFF then mt19937_next64 st
  else masked_or_zero
         (bounded_masked mt19937_next64 rejection_fuel rng (gen_mask rng) st) st.

(** [n] successive results of a draw operation. *)
Fixpoint draw_many {A} (n : nat) (draw : mt19937_state -> A * mt19937_state)
    (st : mt19937_state) : list A :=
  match n with
  | O => []
  | S n' => let (a, st') := draw st in a :: draw_many n' draw st'
  end.

#[global] Instance mt19937 : RandomState mt19937_state := {|
  legacy_seed := mt19937_seed;
  next_double := mt19937_next_double;
  bounded_uint64 := random_bounded_uint64
|}.

(** A state whose next 624 words are all [temper word]. *)
Definition constant_state (word : Z) : mt19937_state :=
  {| key := repeat word 624; pos := 0 |}.

End MT19937.

(* ================================================================= *)
(** ** The primitive binary64 numbers, for comparison *)

(** The exact value of a primitive binary64 number. *)
Definition of_prim (f : PrimFloat.float) : float :=
  match FloatOps.Prim2SF f with
  | SpecFloat.S754_zero _ => Finite 0
  | SpecFloat.S754_infinity s => Infinity s
  | SpecFloat.S754_nan => NaN
  | SpecFloat.S754_finite s m e =>
      Finite (Qred ((if s then -1 else 1) * inject_Z (Zpos m) * pow2 e))
  end.

(** The same float: equal values, the same infinity, or both NaN. *)
Definition same (a b : float) : bool :=
  match a, b with
  | Finite x, Finite y => Qeq_bool x y
  | Infinity s, Infinity t => Bool.eqb s t
  | NaN, NaN => true
  | _, _ => false
  end.

(** The bounds of every call of [np.random.uniform] in the program, as
    they are written. *)
Definition program_literals : list (Q * Q) := [
  (0.6, 0.85); (0.4, 0.7); (30, 60);
  (0.5, 0.75); (0.3, 0.6); (20, 50);
  (0.7, 0.9); (0.5, 0.8); (1500, 3000);
  (0.4, 0.7); (0.3, 0.6); (0.2, 0.5);
  (0.4, 0.7); (0.3, 0.6);
  (50, 250); (0.6, 0.9); (0.4, 0.8); (0.5, 0.9);
  (40, 200); (0.5, 0.85); (0.3, 0.7); (0.4, 0.8);
  (0.2, 0.5); (0.3, 0.6); (0.1, 0.4); (30, 180);
  (5000, 100000); (5000, 100000); (10000, 250000); (50, 500)
]%Q.

(** The formula of [uniform] and its bounds on the primitive binary64
    numbers of the prover, and pseudo-random operands, to compare the
    operations of [float] with. *)
Module Binary64.
Import Floats.
#[local] Set Warnings "-inexact-float".
#[local] Open Scope float_scope.

Definition uniform (low high u : PrimFloat.float) : PrimFloat.float :=
  low + (high - low) * u.

(** The largest result of [random_sample]: [1 - 2^-53]. *)
Definition sample_max : PrimFloat.float := 0x1.fffffffffffffp-1.

(** The bounds of every call of [np.random.uniform] in the program. *)
Definition program_bounds : list (PrimFloat.float * PrimFloat.float) := [
  (0.6, 0.85); (0.4, 0.7); (30, 60);
  (0.5, 0.75); (0.3, 0.6); (20, 50);
  (0.7, 0.9); (0.5, 0.8); (1500, 3000);
  (0.4, 0.7); (0.3, 0.6); (0.2, 0.5);
  (0.4, 0.7); (0.3, 0.6);
  (50, 250); (0.6, 0.9); (0.4, 0.8); (0.5, 0.9);
  (40, 200); (0.5, 0.85); (0.3, 0.7); (0.4, 0.8);
  (0.2, 0.5); (0.3, 0.6); (0.1, 0.4); (30, 180);
  (5000, 100000); (5000, 100000); (10000, 250000); (50, 500)
].

Definition endpoints_within (b : PrimFloat.float * PrimFloat.float) : bool :=
  let (low, high) := b in
  PrimFloat.leb low (uniform low high 0)
  && PrimFloat.leb (uniform low high sample_max) high.

(** Three samples, as primitive numbers and by their values. *)
Definition samples : list (PrimFloat.float * Q) := [
  (0, 0%Q);
  (0x1p-1, (1 # 2)%Q);
  (sample_max, (9007199254740991 # 9007199254740992)%Q)
].

(** For one pair of bounds: the literals and the results of the formula
    at the three samples are the same floats on both sides. *)
Definition agrees (b : (Q * Q) * (PrimFloat.float * PrimFloat.float)) : bool :=
  let '((l, h), (low, high)) := b in
  same (of_prim low) (lit l)
  && same (of_prim high) (lit h)
  && forallb (fun uq : PrimFloat.float * Q =>
                same (of_prim (uniform low high (fst uq)))
                     (random_uniform (lit l) (fsub (lit h) (lit l))
                        (Finite (snd uq))))
             samples.

(** Pseudo-random operands: a 53-bit mantissa, a sign and an exponent out
    of [span] consecutive ones from [least] on. *)
Definition lcg (x : Z) : Z :=
  ((x * 6364136223846793005 + 1442695040888963407) mod 2 ^ 64)%Z.

Definition operand (least span x : Z) : PrimFloat.float :=
  let m := (x mod 2 ^ 53)%Z in
  let e := ((x / 2 ^ 53) mod span + least)%Z in
  let f := FloatOps.Z.ldexp (PrimFloat.of_uint63 (Uint63.of_Z m)) e in
  if ((x / 2 ^ 63) =? 0)%Z then f else PrimFloat.opp f.

Fixpoint operations_agree (n : nat) (least span x : Z) : bool :=
  match n with
  | O => true
  | S n' =>
      let y := lcg x in
      let z := lcg y in
      let a := operand least span y in
      let b := operand least span z in
      same (of_prim (a + b)) (fadd (of_prim a) (of_prim b))
      && same (of_prim (a - b)) (fsub (of_prim a) (of_prim b))
      && same (of_prim (a * b)) (fmul (of_prim a) (of_prim b))
      && operations_agree n' least span z
  end.

End Binary64.

(* ================================================================= *)
(** ** Intervals, schema and records: what the properties are stated with *)

(** A float that is a whole number. *)
Definition integral (x : float) : Prop :=
  match x with
  | Finite q => exists z : Z, (q == inject_Z z)%Q
  | _ => False
  end.

(** The interval table of [generateWeaponEffectiveness] as the
    specification declares it; each bound is the float of its literal. *)
Definition weapon_intervals : dict (dict (float * float)) := [
  ("tanks", [
     ("accuracy", interval 0.6 0.85);
     ("kill_probability", interval 0.4 0.7);
     ("operational_range_km", interval 30 60) ]);
  ("artillery", [
     ("accuracy", interval 0.5 0.75);
     ("kill_probability", interval 0.3 0.6);
     ("operational_range_km", interval 20 50) ]);
  ("fighter_jets", [
     ("accuracy", interval 0.7 0.9);
     ("kill_probability", interval 0.5 0.8);
     ("operational_range_km", interval 1500 3000) ]);
  ("cyber_attacks", [
     ("infrastructure_disruption_probability", interval 0.4 0.7);
     ("communication_system_compromise", interval 0.3 0.6);
     ("military_network_penetration", interval 0.2 0.5) ]);
  ("special_forces", [
     ("mission_success_probability", interval 0.4 0.7);
     ("strategic_target_elimination", interval 0.3 0.6) ])
].

(** A profile has the categories and metrics of the table, in its order,
    and every value is within the interval declared for it. *)
Definition profile_within (ivs : dict (dict (float * float)))
    (profile : dict (dict float)) : Prop :=
  Forall2 (fun civ cv =>
             fst civ = fst cv /\
             Forall2 (fun miv mv => fst miv = fst mv /\ within (snd miv) (snd mv))
                     (snd civ) (snd cv))
          ivs profile.

(** [profile[category][name]], when both keys are present. *)
Definition lookup2 {V} (category name : string) (profile : dict (dict V))
  : option V :=
  match dict_get category profile with
  | Some m => dict_get name m
  | None => None
  end.

(** The field names of a scenario record, in the order of the dict
    display of lines 94 to 124. *)
Definition scenario_columns : list string := [
  "cyber_conflict_probability"; "conventional_war_probability";
  "limited_engagement_probability"; "initial_aggressor";
  "conflict_duration_days";
  "tank_effectiveness_A"; "artillery_effectiveness_A"; "jet_effectiveness_A";
  "tank_effectiveness_B"; "artillery_effectiveness_B"; "jet_effectiveness_B";
  "cyber_disruption_potential_A"; "cyber_disruption_potential_B";
  "estimated_military_casualties_A"; "estimated_military_casualties_B";
  "estimated_civilian_casualties"; "economic_damage_billion_usd"
].

(** The per-record draws of one iteration, in draw order. *)
Record draws : Type := {
  cyber_conflict : float;
  conventional_war : float;
  limited_engagement : float;
  aggressor : string;
  duration : float;
  casualties_A : float;
  casualties_B : float;
  civilian : float;
  damage : float
}.

(** The four metrics of the snapshot that a record copies. *)
Record snapshot : Type := {
  tank_kill : float;
  artillery_kill : float;
  jet_kill : float;
  cyber_disruption : float
}.

Definition snapshot_of (profile : dict (dict float)) (k : snapshot) : Prop :=
  lookup2 "tanks" "kill_probability" profile = Some (tank_kill k) /\
  lookup2 "artillery" "kill_probability" profile = Some (artillery_kill k) /\
  lookup2 "fighter_jets" "kill_probability" profile = Some (jet_kill k) /\
  lookup2 "cyber_attacks" "infrastructure_disruption_probability" profile
    = Some (cyber_disruption k).

(** The record that an iteration builds from a snapshot and its draws. *)
Definition record_of (k : snapshot) (d : draws) : dict value := [
  ("cyber_conflict_probability", VFloat (cyber_conflict d));
  ("conventional_war_probability", VFloat (conventional_war d));
  ("limited_engagement_probability", VFloat (limited_engagement d));
  ("initial_aggressor", VStr (aggressor d));
  ("conflict_duration_days", VFloat (duration d));
  ("tank_effectiveness_A", VFloat (tank_kill k));
  ("artillery_effectiveness_A", VFloat (artillery_kill k));
  ("jet_effectiveness_A", VFloat (jet_kill k));
  ("tank_effectiveness_B", VFloat (tank_kill k));
  ("artillery_effectiveness_B", VFloat (artillery_kill k));
  ("jet_effectiveness_B", VFloat (jet_kill k));
  ("cyber_disruption_potential_A", VFloat (cyber_disruption k));
  ("cyber_disruption_potential_B", VFloat (cyber_disruption k));
  ("estimated_military_casualties_A", VFloat (casualties_A d));
  ("estimated_military_casualties_B", VFloat (casualties_B d));
  ("estimated_civilian_casualties", VFloat (civilian d));
  ("economic_damage_billion_usd", VFloat (damage d))
].

(** The ranges of the per-record draws. *)
Definition draws_in_range (d : draws) : Prop :=
  within (interval 0.2 0.5) (cyber_conflict d) /\
  within (interval 0.3 0.6) (conventional_war d) /\
  within (interval 0.1 0.4) (limited_engagement d) /\
  (aggressor d = "Nation_A" \/ aggressor d = "Nation_B") /\
  within (interval 30 180) (duration d) /\
  within (interval 5000 100000) (casualties_A d) /\
  within (interval 5000 100000) (casualties_B d) /\
  within (interval 10000 250000) (civilian d) /\
  within (interval 50 500) (damage d).

(** A row of the table: every cell present. *)
Definition row_of (record : dict value) : list (option value) :=
  map (fun kv => Some (snd kv)) record.

Definition empty_frame : DataFrame := {| columns := []; data := [] |}.

(** A record as the table shows it: each field with its cell. *)
Definition cells (record : dict value) : dict (option value) :=
  map (fun kv => (fst kv, Some (snd kv))) record.

(** The cell of a field of a row of the table is the float [x]. *)
Definition field_is (name : string) (x : float) (r : dict (option value)) : Prop :=
  dict_get name r = Some (Some (VFloat x)).

(** Both sides of a row carry [profile[category][name]]. *)
Definition copies (profile : dict (dict float)) (category name : string)
    (field_A field_B : string) (r : dict (option value)) : Prop :=
  exists x, lookup2 category name profile = Some x /\
            field_is field_A x r /\ field_is field_B x r.

(** The table that a run of the pipeline returned, if it returned one. *)
Definition table_of {S} (run : result DataFrame * S) : option DataFrame :=
  match fst run with
  | Ok df => Some df
  | Raise _ => None
  end.

(** The range of a draw: [randint] leaves its upper bound out,
    [uniform] is taken on the closed interval. *)
Inductive range : Type :=
| IntRange (low high : Z)
| FloatRange (low high : float).

Definition in_range (r : range) (v : value) : Prop :=
  match r, v with
  | IntRange low high, VInt n => low <= n < high
  | FloatRange low high, VFloat x => within (low, high) x
  | _, _ => False
  end.

(** The ranges of [generate_national_capabilities], lines 63 to 76. *)
Definition capability_ranges : dict (dict range) := [
  ("Nation_A", [
     ("military_personnel", IntRange 500000 1200000);
     ("military_budget_billion_usd", FloatRange (lit 50) (lit 250));
     ("technological_readiness", FloatRange (lit 0.6) (lit 0.9));
     ("cyber_defense_capability", FloatRange (lit 0.4) (lit 0.8));
     ("supply_chain_resilience", FloatRange (lit 0.5) (lit 0.9)) ]);
  ("Nation_B", [
     ("military_personnel", IntRange 400000 1000000);
     ("military_budget_billion_usd", FloatRange (lit 40) (lit 200));
     ("technological_readiness", FloatRange (lit 0.5) (lit 0.85));
     ("cyber_defense_capability", FloatRange (lit 0.3) (lit 0.7));
     ("supply_chain_resilience", FloatRange (lit 0.4) (lit 0.8)) ])
].

(** A capability profile has the nations and metrics of the table, in
    its order, each value of the kind and in the range of its draw. *)
Definition capabilities_within (ranges : dict (dict range))
    (capabilities : dict (dict value)) : Prop :=
  Forall2 (fun nr nv =>
             fst nr = fst nv /\
             Forall2 (fun mr mv => fst mr = fst mv /\ in_range (snd mr) (snd mv))
                     (snd nr) (snd nv))
          ranges capabilities.

(** The cell of a field of a row is a float of the interval. *)
Definition field_within (name : string) (iv : float * float)
    (r : dict (option value)) : Prop :=
  exists x, field_is name x r /\ within iv x.

(* ================================================================= *)
(** ** Dictionaries and data frames *)

Lemma existsb_eqb_In (k : string) (l : list string) :
  existsb (String.eqb k) l = true <-> In k l.
Proof.
  rewrite existsb_exists. split.
  - intros (x & Hin & Heq). apply String.eqb_eq in Heq. now subst.
  - intros Hin. exists k. split; [assumption | apply String.eqb_refl].
Qed.

Lemma fold_add_key_absorb (l acc : list string) :
  incl l acc -> fold_left add_key l acc = acc.
Proof.
  induction l as [|k l IH]; intros Hincl; simpl; [reflexivity|].
  unfold add_key at 2.
  assert (Hk : existsb (String.eqb k) acc = true)
    by (apply existsb_eqb_In, Hincl; now left).
  rewrite Hk. apply IH. intros x Hx. apply Hincl. now right.
Qed.

Lemma fold_add_key_fresh (l acc : list string) :
  NoDup (acc ++ l) -> fold_left add_key l acc = (acc ++ l)%list.
Proof.
  revert acc. induction l as [|k l IH]; intros acc Hnd; simpl.
  - now rewrite app_nil_r.
  - unfold add_key at 2.
    destruct (existsb (String.eqb k) acc) eqn:Hk.
    + apply existsb_eqb_In in Hk. exfalso.
      apply NoDup_remove_2 in Hnd. apply Hnd, in_or_app. now left.
    + rewrite IH; rewrite <- app_assoc; simpl; [reflexivity | assumption].
Qed.

Lemma union_keys_nil : union_keys [] = [].
Proof. reflexivity. Qed.

(** Records that all have the keys [K] give the columns [K]. *)
Lemma union_keys_uniform (K : list string) (records : list (dict value)) :
  NoDup K -> records <> [] -> Forall (fun d => keys d = K) records ->
  union_keys records = K.
Proof.
  intros Hnd Hne Hall. destruct records as [|d records]; [congruence|].
  apply Forall_cons_iff in Hall as [Hd Hrest]. unfold union_keys. simpl.
  rewrite fold_add_key_fresh by (simpl; rewrite Hd; assumption). simpl.
  clear Hne. induction Hrest as [|d' l Hd' _ IH]; simpl.
  - assumption.
  - rewrite Hd', Hd. rewrite fold_add_key_absorb by apply incl_refl.
    rewrite Hd in IH. exact IH.
Qed.

Lemma dict_get_head {V} (k : string) (v : V) (d : dict V) :
  dict_get k ((k, v) :: d) = Some v.
Proof. simpl. now rewrite String.eqb_refl. Qed.

Lemma dict_get_tail {V} (c k : string) (v : V) (d : dict V) :
  c <> k -> dict_get c ((k, v) :: d) = dict_get c d.
Proof. intros Hne. simpl. apply String.eqb_neq in Hne. now rewrite Hne. Qed.

(** Looking every key of a record up in it gives its values in order. *)
Lemma lookup_own_keys (d : dict value) :
  NoDup (keys d) -> map (fun c => dict_get c d) (keys d) = row_of d.
Proof.
  induction d as [|[k v] d IH]; intros Hnd; [reflexivity|].
  simpl in Hnd. inversion Hnd as [|? ? Hnotin Hnd']; subst.
  change (row_of ((k, v) :: d)) with (Some v :: row_of d).
  cbn [keys map fst snd]. rewrite dict_get_head. f_equal.
  rewrite <- IH by assumption. apply map_ext_in. intros c Hc.
  apply dict_get_tail. intros ->. contradiction.
Qed.

(** The frame of records that share a schema: the schema as columns and
    one full row for each record, in order. *)
Lemma pd_DataFrame_uniform (K : list string) (records : list (dict value)) :
  NoDup K -> records <> [] -> Forall (fun d => keys d = K) records ->
  pd_DataFrame records = {| columns := K; data := map row_of records |}.
Proof.
  intros Hnd Hne Hall. unfold pd_DataFrame.
  rewrite (union_keys_uniform K) by assumption. f_equal.
  apply map_ext_in. intros d Hd.
  rewrite Forall_forall in Hall. specialize (Hall d Hd).
  rewrite <- Hall. apply lookup_own_keys. now rewrite Hall.
Qed.

Lemma pd_DataFrame_nil : pd_DataFrame [] = empty_frame.
Proof. reflexivity. Qed.

(** Whatever the records, the frame has one row for each. *)
Lemma df_len_pd_DataFrame (records : list (dict value)) :
  df_len (pd_DataFrame records) = List.length records.
Proof. unfold df_len, pd_DataFrame. simpl. apply length_map. Qed.

Lemma scenario_columns_NoDup : NoDup scenario_columns.
Proof.
  unfold scenario_columns.
  repeat (constructor; [simpl; intuition discriminate|]). constructor.
Qed.

Lemma keys_record_of (k : snapshot) (d : draws) :
  keys (record_of k d) = scenario_columns.
Proof. reflexivity. Qed.

(* ================================================================= *)
(** ** Rounding keeps the order *)

Lemma pow2_pos e : (0 < pow2 e)%Q.
Proof. apply Qpower_0_lt. reflexivity. Qed.

Lemma pow2_add a b : (pow2 (a + b) == pow2 a * pow2 b)%Q.
Proof. apply Qpower_plus. discriminate. Qed.

Lemma pow2_le a b : a <= b -> (pow2 a <= pow2 b)%Q.
Proof. intros H. apply Qpower_le_compat_l; [assumption | discriminate]. Qed.

Lemma pow2_lt a b : a < b -> (pow2 a < pow2 b)%Q.
Proof. intros H. apply Qpower_lt_compat_l; [assumption | reflexivity]. Qed.

Lemma pow2_nonneg_Z e : 0 <= e -> (pow2 e == inject_Z (2 ^ e))%Q.
Proof. intros H. unfold pow2. now rewrite Zpower_Qpower. Qed.

Lemma round_half_even_Z z : round_half_even (inject_Z z) = z.
Proof.
  unfold round_half_even. rewrite Qfloor_Z.
  assert (H : (inject_Z z - inject_Z z ?= 1 # 2)%Q = Lt).
  { apply Qlt_alt. unfold Qminus. rewrite Qplus_opp_r. reflexivity. }
  now rewrite H.
Qed.

Lemma round_half_even_mono x y :
  (x <= y)%Q -> round_half_even x <= round_half_even y.
Proof.
  intros Hxy. unfold round_half_even.
  pose proof (Qfloor_resp_le _ _ Hxy) as Hf.
  pose proof (Qfloor_le x) as Hx1. pose proof (Qlt_floor x) as Hx2.
  pose proof (Qfloor_le y) as Hy1. pose proof (Qlt_floor y) as Hy2.
  set (fx := Qfloor x) in *. set (fy := Qfloor y) in *.
  rewrite inject_Z_plus in Hx2, Hy2.
  destruct (Z.eq_dec fx fy) as [E|E].
  - rewrite <- E in *. clearbody fx. clear E fy Hf.
    destruct (Qcompare_spec (x - inject_Z fx) (1 # 2));
      destruct (Qcompare_spec (y - inject_Z fx) (1 # 2));
      try (exfalso; lra); destruct (Z.even fx); lia.
  - assert (fx + 1 <= fy) by lia.
    destruct (x - inject_Z fx ?= 1 # 2)%Q; destruct (y - inject_Z fy ?= 1 # 2)%Q;
      try destruct (Z.even fx); try destruct (Z.even fy); lia.
Qed.

Lemma round_half_even_comp x y : (x == y)%Q -> round_half_even x = round_half_even y.
Proof.
  intros H. apply Z.le_antisymm; apply round_half_even_mono; rewrite H; apply Qle_refl.
Qed.

Lemma Qlt_quotient (n : Z) (d : positive) (A B : Z) :
  0 < B -> n * B < A * Zpos d -> (n # d < inject_Z A / inject_Z B)%Q.
Proof.
  intros HB H. destruct B as [|p|p]; try lia.
  unfold Qlt, Qdiv, Qmult, Qinv, inject_Z. cbn [Qnum Qden]. nia.
Qed.

Lemma Qle_quotient (n : Z) (d : positive) (A B : Z) :
  0 < B -> A * Zpos d <= n * B -> (inject_Z A / inject_Z B <= n # d)%Q.
Proof.
  intros HB H. destruct B as [|p|p]; try lia.
  unfold Qle, Qdiv, Qmult, Qinv, inject_Z. cbn [Qnum Qden]. nia.
Qed.

Lemma pow2_sub a b :
  0 <= a -> 0 <= b -> (pow2 (a - b) == inject_Z (2 ^ a) / inject_Z (2 ^ b))%Q.
Proof.
  intros Ha Hb. unfold pow2. rewrite Qpower_minus by discriminate.
  now rewrite !Zpower_Qpower.
Qed.

Lemma floor_log2_spec (x : Q) :
  (0 < x)%Q -> (pow2 (floor_log2 x) <= x /\ x < pow2 (floor_log2 x + 1))%Q.
Proof.
  intros Hx. destruct x as [n d]. unfold floor_log2. cbn [Qnum Qden].
  assert (Hn : 0 < n) by (unfold Qlt in Hx; cbn in Hx; lia).
  pose proof (Z.log2_spec n Hn) as [Hn1 Hn2].
  pose proof (Z.log2_spec (Zpos d) ltac:(lia)) as [Hd1 Hd2].
  pose proof (Z.log2_nonneg n) as Hln. pose proof (Z.log2_nonneg (Zpos d)) as Hld.
  set (ln := Z.log2 n) in *. set (ld := Z.log2 (Zpos d)) in *.
  assert (Hpn : 0 < 2 ^ ln) by (apply Z.pow_pos_nonneg; lia).
  assert (Hpd : 0 < 2 ^ ld) by (apply Z.pow_pos_nonneg; lia).
  assert (Hup : (n # d < pow2 (ln - ld + 1))%Q).
  { replace (ln - ld + 1) with (Z.succ ln - ld) by lia.
    rewrite pow2_sub by lia. apply Qlt_quotient; [assumption|]. nia. }
  assert (Hlow : (pow2 (ln - ld - 1) <= n # d)%Q).
  { replace (ln - ld - 1) with (ln - Z.succ ld) by lia.
    rewrite pow2_sub by lia. apply Qle_quotient; [apply Z.pow_pos_nonneg; lia|]. nia. }
  destruct (Qle_bool (pow2 (ln - ld)) (n # d)) eqn:E.
  - apply Qle_bool_iff in E. split; assumption.
  - split; [assumption|].
    replace (ln - ld - 1 + 1) with (ln - ld) by lia.
    apply Qnot_le_lt. intros H. apply Qle_bool_iff in H. congruence.
Qed.

Lemma floor_log2_unique (x : Q) (e : Z) :
  (pow2 e <= x)%Q -> (x < pow2 (e + 1))%Q -> floor_log2 x = e.
Proof.
  intros H1 H2.
  assert (Hx : (0 < x)%Q) by (eapply Qlt_le_trans; [apply (pow2_pos e) | exact H1]).
  destruct (floor_log2_spec x Hx) as [S1 S2].
  set (f := floor_log2 x) in *.
  destruct (Z.lt_trichotomy f e) as [L|[E|G]]; [|assumption|].
  - exfalso. assert (pow2 (f + 1) <= pow2 e)%Q by (apply pow2_le; lia). lra.
  - exfalso. assert (pow2 (e + 1) <= pow2 f)%Q by (apply pow2_le; lia). lra.
Qed.

Lemma floor_log2_mono (x y : Q) :
  (0 < x)%Q -> (x <= y)%Q -> floor_log2 x <= floor_log2 y.
Proof.
  intros Hx Hxy.
  destruct (floor_log2_spec x Hx) as [X1 X2].
  destruct (floor_log2_spec y ltac:(lra)) as [Y1 Y2].
  destruct (Z_le_gt_dec (floor_log2 x) (floor_log2 y)) as [|G]; [assumption|].
  exfalso.
  assert (pow2 (floor_log2 y + 1) <= pow2 (floor_log2 x))%Q by (apply pow2_le; lia).
  lra.
Qed.

Lemma round_magnitude_nonneg (x : Q) : (0 <= x)%Q -> (0 <= round_magnitude x)%Q.
Proof.
  intros Hx. unfold round_magnitude.
  apply Qmult_le_0_compat; [|apply Qlt_le_weak, pow2_pos].
  change 0%Q with (inject_Z 0). rewrite <- Zle_Qle.
  rewrite <- (round_half_even_Z 0). apply round_half_even_mono.
  apply Qle_shift_div_l; [apply pow2_pos|].
  change (inject_Z 0) with 0%Q. rewrite Qmult_0_l. assumption.
Qed.

Lemma round_magnitude_mono (x y : Q) :
  (0 <= x)%Q -> (x <= y)%Q -> (round_magnitude x <= round_magnitude y)%Q.
Proof.
  intros Hx Hxy.
  destruct (Qlt_le_dec 0 x) as [Hpos|Hzero].
  2:{ assert (Hx0 : (x == 0)%Q) by lra.
      assert (E : (round_magnitude x == 0)%Q).
      { unfold round_magnitude.
        rewrite (round_half_even_comp _ (inject_Z 0)).
        - rewrite round_half_even_Z. ring.
        - unfold Qdiv. transitivity (0 * / pow2 (ulp_exponent x))%Q.
          + apply Qmult_comp; [exact Hx0 | reflexivity].
          + now rewrite Qmult_0_l. }
      rewrite E. apply round_magnitude_nonneg. lra. }
  pose proof (floor_log2_mono x y Hpos Hxy) as Hmono.
  destruct (floor_log2_spec x Hpos) as [X1 X2].
  destruct (floor_log2_spec y ltac:(lra)) as [Y1 Y2].
  unfold round_magnitude, ulp_exponent.
  set (ex := floor_log2 x) in *. set (ey := floor_log2 y) in *.
  set (qx := Z.max (ex - 52) (-1074)). set (qy := Z.max (ey - 52) (-1074)).
  assert (Hq : qx <= qy) by lia.
  pose proof (pow2_pos qx) as Px. pose proof (pow2_pos qy) as Py.
  destruct (Z.eq_dec qx qy) as [E|NE].
  - rewrite <- E. apply Qmult_le_compat_r; [|lra].
    rewrite <- Zle_Qle. apply round_half_even_mono.
    apply Qmult_le_compat_r; [assumption|]. apply Qlt_le_weak, Qinv_lt_0_compat, Px.
  - assert (Hqy : qy = ey - 52) by lia.
    assert (Hex : ex + 1 <= qy + 52) by lia.
    (* the power of two between the two numbers *)
    apply Qle_trans with (pow2 (qy + 52)).
    + assert (Hk : 0 <= qy + 52 - qx) by lia.
      assert (EB : (pow2 (qy + 52) == inject_Z (2 ^ (qy + 52 - qx)) * pow2 qx)%Q).
      { rewrite <- pow2_nonneg_Z by assumption. rewrite <- pow2_add.
        replace (qy + 52 - qx + qx) with (qy + 52) by lia. reflexivity. }
      rewrite EB. apply Qmult_le_compat_r; [|lra].
      rewrite <- Zle_Qle.
      rewrite <- (round_half_even_Z (2 ^ (qy + 52 - qx))).
      apply round_half_even_mono.
      apply Qle_shift_div_r; [assumption|].
      rewrite <- EB.
      apply Qle_trans with (pow2 (ex + 1)); [lra | apply pow2_le; lia].
    + assert (EB : (pow2 (qy + 52) == inject_Z (2 ^ 52) * pow2 qy)%Q).
      { rewrite <- pow2_nonneg_Z by lia. rewrite <- pow2_add.
        replace (52 + qy) with (qy + 52) by lia. reflexivity. }
      rewrite EB. apply Qmult_le_compat_r; [|lra].
      rewrite <- Zle_Qle.
      rewrite <- (round_half_even_Z (2 ^ 52)) at 1.
      apply round_half_even_mono.
      apply Qle_shift_div_l; [assumption|].
      rewrite <- EB. rewrite Hqy.
      replace (ey - 52 + 52) with ey by lia. assumption.
Qed.

Lemma Qnum_nonneg (x : Q) : (0 <= x)%Q -> (0 <=? Qnum x) = true.
Proof. intros H. apply Z.leb_le. unfold Qle in H. cbn in H. lia. Qed.

Lemma overflow_nonnegative (a : Q) : (0 <= a)%Q -> nonnegative (overflow false a).
Proof.
  intros H. unfold overflow. destruct (Qle_bool (pow2 1024) a); cbn; [reflexivity|].
  now rewrite Qred_correct.
Qed.

Lemma overflow_mono (a b : Q) :
  (a <= b)%Q -> fle (overflow false a) (overflow false b) = true.
Proof.
  intros H. unfold overflow.
  destruct (Qle_bool (pow2 1024) a) eqn:Ea; destruct (Qle_bool (pow2 1024) b) eqn:Eb;
    cbn; try reflexivity.
  - apply Qle_bool_iff in Ea.
    assert (Hb : (pow2 1024 <= b)%Q) by (eapply Qle_trans; eassumption).
    apply Qle_bool_iff in Hb. congruence.
  - apply Qle_bool_iff. now rewrite !Qred_correct.
Qed.

Lemma round64_nonnegative (x : Q) : (0 <= x)%Q -> nonnegative (round64 x).
Proof.
  intros H. unfold round64. rewrite Qnum_nonneg by assumption.
  apply overflow_nonnegative, round_magnitude_nonneg, H.
Qed.

(** Rounding keeps the order of non-negative numbers. *)
Lemma round64_mono (x y : Q) :
  (0 <= x)%Q -> (x <= y)%Q -> fle (round64 x) (round64 y) = true.
Proof.
  intros Hx Hxy. unfold round64.
  rewrite !Qnum_nonneg by lra.
  apply overflow_mono, round_magnitude_mono; assumption.
Qed.

Lemma fle_trans (a b c : float) :
  fle a b = true -> fle b c = true -> fle a c = true.
Proof.
  destruct a as [x|[]|], b as [y|[]|], c as [z|[]|]; cbn; try congruence.
  intros H1 H2. apply Qle_bool_iff in H1, H2. apply Qle_bool_iff.
  eapply Qle_trans; eassumption.
Qed.

Lemma fadd_mono (l : Q) (p p' : float) :
  (0 <= l)%Q -> nonnegative p -> nonnegative p' -> fle p p' = true ->
  fle (fadd (Finite l) p) (fadd (Finite l) p') = true.
Proof.
  intros Hl Hp Hp' Hle.
  destruct p as [a|[]|], p' as [b|[]|]; cbn in *; try congruence; try contradiction.
  - apply Qle_bool_iff in Hle. apply round64_mono; lra.
  - pose proof (round64_nonnegative (l + a) ltac:(lra)) as Hn.
    destruct (round64 (l + a)) as [r|[]|]; cbn in *; congruence || reflexivity || contradiction.
Qed.

Lemma random_uniform_mono (l d u u' : Q) :
  (0 <= l)%Q -> (0 <= d)%Q -> (0 <= u)%Q -> (u <= u')%Q ->
  fle (random_uniform (Finite l) (Finite d) (Finite u))
      (random_uniform (Finite l) (Finite d) (Finite u')) = true.
Proof.
  intros Hl Hd Hu Huu'. unfold random_uniform. cbn [fmul].
  assert (0 <= d * u)%Q by nra. assert (d * u <= d * u')%Q by nra.
  apply fadd_mono; try assumption; try (apply round64_nonnegative; nra).
  now apply round64_mono.
Qed.

(** When the formula of [uniform] stays between the bounds at the samples
    0 and 1, it stays between them at every sample of [[0, 1]]. *)
Lemma random_uniform_within (low high : float) (u : Q) :
  endpoints_within low high = true -> (0 <= u)%Q -> (u <= 1)%Q ->
  within (low, high) (random_uniform low (fsub high low) (Finite u)).
Proof.
  unfold endpoints_within. intros Hok Hu0 Hu1.
  destruct low as [l| |]; try discriminate.
  destruct (fsub high (Finite l)) as [d| |]; try discriminate.
  apply andb_prop in Hok as [Hok Hhi]. apply andb_prop in Hok as [Hok Hlo].
  apply andb_prop in Hok as [Hl Hd]. apply Qle_bool_iff in Hl, Hd.
  split; cbn [fst snd].
  - eapply fle_trans; [exact Hlo|]. apply random_uniform_mono; lra.
  - eapply fle_trans; [|exact Hhi]. apply random_uniform_mono; lra.
Qed.


Lemma round_magnitude_max_float : (round_magnitude max_float == max_float)%Q.
Proof. vm_compute. reflexivity. Qed.

(** A number no larger in magnitude than the largest float rounds to a
    finite float. *)
Lemma round64_finite (x : Q) :
  (- max_float <= x)%Q -> (x <= max_float)%Q -> is_finite (round64 x) = true.
Proof.
  intros Hlo Hhi.
  assert (Hmax : (max_float < pow2 1024)%Q) by (vm_compute; reflexivity).
  assert (Hfin : forall a, (0 <= a)%Q -> (a <= max_float)%Q ->
                           forall negative, is_finite (overflow negative (round_magnitude a)) = true).
  { intros a Ha0 Ha negative. unfold overflow.
    destruct (Qle_bool (pow2 1024) (round_magnitude a)) eqn:E; [|reflexivity].
    apply Qle_bool_iff in E.
    pose proof (round_magnitude_mono a max_float Ha0 Ha) as Hm.
    rewrite round_magnitude_max_float in Hm. lra. }
  unfold round64. destruct (0 <=? Qnum x) eqn:E.
  - apply Hfin; [|assumption]. apply Z.leb_le in E. unfold Qle. cbn. lia.
  - apply Hfin; [|lra]. apply Z.leb_gt in E.
    assert (x < 0)%Q by (unfold Qlt; cbn; lia). lra.
Qed.

Arguments round64 : simpl never.
Arguments lit : simpl never.
Arguments fadd : simpl never.
Arguments fsub : simpl never.
Arguments fmul : simpl never.
Arguments fle : simpl never.

(* ================================================================= *)
(** ** Runs of the sampling functions *)

Section Runs.

Context {S : Type} {R : RandomState S}.

(** [uniform] returns when the difference of its bounds is finite; under
    the contract of the generator, and for bounds between which the
    formula stays at the samples 0 and 1, its value is between them. *)
Lemma uniform_run (low high : float) (s : S) :
  is_finite (fsub high low) = true ->
  exists v s',
    uniform low high s = (Ok v, s') /\
    (RandomStateLaws R -> endpoints_within low high = true ->
     within (low, high) v).
Proof.
  intros Hfin. unfold uniform. rewrite Hfin.
  pose proof (fun L => next_double_range R L s) as Hu.
  destruct (next_double s) as [u s']. cbn [fst] in Hu.
  exists (random_uniform low (fsub high low) u), s'. split; [reflexivity|].
  intros L Hok. destruct (Hu L) as (q & -> & H0 & H1).
  apply random_uniform_within; [assumption | assumption | lra].
Qed.

(** [randint] on a non-empty range inside int64. *)
Lemma randint_run (low high : Z) (s : S) :
  int64_min <= low -> high - 1 <= int64_max -> low < high ->
  exists v s',
    randint low high s = (Ok v, s') /\
    (RandomStateLaws R -> low <= v < high).
Proof.
  intros Hlo Hhi Hlt. unfold randint.
  destruct (low <? int64_min) eqn:E1; [apply Z.ltb_lt in E1; lia|].
  destruct (int64_max <? high - 1) eqn:E2; [apply Z.ltb_lt in E2; lia|].
  destruct (high - 1 <? low) eqn:E3; [apply Z.ltb_lt in E3; lia|].
  pose proof (fun L => bounded_uint64_range R L (high - 1 - low) s) as Hv.
  destruct (bounded_uint64 (high - 1 - low) s) as [v s']. simpl in Hv.
  exists (low + v), s'. split; [reflexivity|].
  intros L. specialize (Hv L). lia.
Qed.

(** [randint] raises on an empty range: [low >= high]. *)
Lemma randint_empty_range (low high : Z) (s : S) :
  int64_min <= low -> high - 1 <= int64_max -> high <= low ->
  randint low high s = (Raise (ValueError "low >= high"), s).
Proof.
  intros Hlo Hhi Hle. unfold randint.
  destruct (low <? int64_min) eqn:E1; [apply Z.ltb_lt in E1; lia|].
  destruct (int64_max <? high - 1) eqn:E2; [apply Z.ltb_lt in E2; lia|].
  destruct (high - 1 <? low) eqn:E3; [reflexivity | apply Z.ltb_ge in E3; lia].
Qed.

(** [choice] between the two nations. *)
Lemma choice_run (x y : string) (s : S) :
  exists v s',
    choice [x; y] s = (Ok v, s') /\
    (RandomStateLaws R -> v = x \/ v = y).
Proof.
  unfold choice, bind.
  destruct (randint_run 0 (Z.of_nat (List.length [x; y])) s)
    as (idx & s' & E & Hidx); [unfold int64_min; lia | unfold int64_max; simpl; lia | simpl; lia |].
  rewrite E. exists (nth (Z.to_nat idx) [x; y] x), s'. split; [reflexivity|].
  intros L. specialize (Hidx L). simpl in Hidx.
  assert (Hcases : idx = 0 \/ idx = 1) by lia.
  destruct Hcases; subst idx; [left | right]; reflexivity.
Qed.

End Runs.

(** Run the next draw of the goal and name its value and the state it
    leaves. *)
Ltac run_uniform :=
  match goal with
  | |- context [uniform ?lo ?hi ?s] =>
      let v := fresh "v" in
      let s' := fresh "s" in
      let E := fresh "E" in
      let Hv := fresh "Hv" in
      destruct (uniform_run lo hi s) as (v & s' & E & Hv);
      [vm_compute; reflexivity|];
      rewrite E; clear E
  end.

Ltac run_randint :=
  match goal with
  | |- context [randint ?lo ?hi ?s] =>
      let v := fresh "n" in
      let s' := fresh "s" in
      let E := fresh "E" in
      let Hv := fresh "Hn" in
      destruct (randint_run lo hi s) as (v & s' & E & Hv);
      [unfold int64_min; lia | unfold int64_max; lia | lia |];
      rewrite E; clear E
  end.

Ltac run_choice :=
  match goal with
  | |- context [choice [?x; ?y] ?s] =>
      let v := fresh "c" in
      let s' := fresh "s" in
      let E := fresh "E" in
      let Hv := fresh "Hc" in
      destruct (choice_run x y s) as (v & s' & E & Hv);
      rewrite E; clear E
  end.

Ltac expose :=
  repeat (progress (cbn [dict_display]; unfold bind, fmap, ret, metric, getitem;
                    cbn beta iota)).

Section Pipeline.

Context {S : Type} {R : RandomState S}.

(** The weapon snapshot: always produced, with the layout of the interval
    table, and within the intervals when the generator keeps its contract. *)
Lemma generate_weapon_effectiveness_run (s : S) :
  exists profile s',
    generate_weapon_effectiveness s = (Ok profile, s') /\
    (exists k, snapshot_of profile k) /\
    (RandomStateLaws R -> profile_within weapon_intervals profile).
Proof.
  unfold generate_weapon_effectiveness. expose.
  do 14 (run_uniform; expose; cbn [dict_set String.eqb Ascii.eqb Bool.eqb]).
  eexists. eexists. split; [reflexivity|]. split.
  - eexists {| tank_kill := _; artillery_kill := _; jet_kill := _; cyber_disruption := _ |}.
    repeat split; reflexivity.
  - intros L. unfold profile_within, weapon_intervals.
    repeat first
      [ apply Forall2_cons | apply Forall2_nil | reflexivity
      | match goal with
        | H : _ -> _ -> within ?iv ?x |- within ?iv ?x => apply H; [exact L | vm_compute; reflexivity]
        end
      | split ].
Qed.

(** The capability profile: always produced. *)
Lemma generate_national_capabilities_run (s : S) :
  exists capabilities s',
    generate_national_capabilities s = (Ok capabilities, s').
Proof.
  unfold generate_national_capabilities. expose.
  do 2 (run_randint; expose; do 4 (run_uniform; expose)).
  eexists. eexists. reflexivity.
Qed.

(** One iteration: the record of the snapshot and of nine fresh draws. *)
Lemma scenario_run (profile : dict (dict float)) (k : snapshot) (s : S) :
  snapshot_of profile k ->
  exists d s',
    scenario profile s = (Ok (record_of k d), s') /\
    (RandomStateLaws R -> draws_in_range d).
Proof.
  intros (Ht & Ha & Hj & Hc). unfold lookup2 in Ht, Ha, Hj, Hc.
  destruct (dict_get "tanks" profile) as [tanks|] eqn:Et; [|discriminate].
  destruct (dict_get "artillery" profile) as [artillery|] eqn:Ea; [|discriminate].
  destruct (dict_get "fighter_jets" profile) as [jets|] eqn:Ej; [|discriminate].
  destruct (dict_get "cyber_attacks" profile) as [cyber|] eqn:Ec; [|discriminate].
  unfold scenario. expose.
  do 3 (run_uniform; expose). run_choice; expose. run_uniform; expose.
  rewrite Et, Ea, Ej, Ec; expose. rewrite Ht, Ha, Hj, Hc; expose.
  do 4 (run_uniform; expose).
  cbn [dict_set String.eqb Ascii.eqb Bool.eqb].
  eexists {| cyber_conflict := _; conventional_war := _; limited_engagement := _;
             aggressor := _; duration := _; casualties_A := _; casualties_B := _;
             civilian := _; damage := _ |}.
  eexists. split; [reflexivity|].
  intros L. unfold draws_in_range. cbn [cyber_conflict conventional_war
    limited_engagement aggressor duration casualties_A casualties_B civilian damage].
  repeat first
    [ match goal with
      | H : _ -> _ -> within ?iv ?x |- within ?iv ?x => apply H; [exact L | vm_compute; reflexivity]
      | H : _ -> _ \/ _ |- _ \/ _ => exact (H L)
      end
    | split ].
Qed.

(** Unrolling the loop at its end: [n + 1] iterations are [n] iterations
    and one more. *)
Lemma for_range_succ {A} (n : nat) (body : A -> py A) (acc : A) (s : S) :
  for_range (Datatypes.S n) body acc s
  = bind (for_range n body acc) body s.
Proof.
  revert acc s. induction n as [|n IH]; intros acc s.
  - cbn [for_range]. unfold bind, ret.
    destruct (body acc s) as [[a|e] s']; reflexivity.
  - change (for_range (Datatypes.S (Datatypes.S n)) body acc s)
      with (bind (body acc) (fun acc' => for_range (Datatypes.S n) body acc') s).
    change (for_range (Datatypes.S n) body acc)
      with (bind (body acc) (fun acc' => for_range n body acc')).
    unfold bind. cbn beta.
    destruct (body acc s) as [[a|e] s']; [|reflexivity].
    rewrite IH. reflexivity.
Qed.

(** The loop appends one record of the snapshot for each iteration and
    leaves the records it started from in place. *)
Lemma scenario_loop_run (profile : dict (dict float)) (k : snapshot)
    (capabilities : dict (dict value)) (num_scenarios : Z) :
  snapshot_of profile k ->
  forall (scenarios : list (dict value)) (s : S),
  exists ds s',
    scenario_loop profile capabilities num_scenarios scenarios s
      = (Ok (scenarios ++ map (record_of k) ds)%list, s') /\
    List.length ds = range_len num_scenarios /\
    (RandomStateLaws R -> Forall draws_in_range ds).
Proof.
  intros Hk. unfold scenario_loop.
  induction (range_len num_scenarios) as [|n IH]; intros scenarios s.
  - exists [], s. cbn [for_range map]. rewrite app_nil_r.
    split; [reflexivity|]. split; [reflexivity|]. intros _. constructor.
  - cbn [for_range]. unfold bind at 1 2.
    destruct (scenario_run profile k s Hk) as (d & s1 & E & Hd). rewrite E.
    unfold ret at 1.
    destruct (IH (scenarios ++ [record_of k d])%list s1) as (ds & s2 & E2 & Hlen & Hds).
    rewrite E2. exists (d :: ds), s2. rewrite <- app_assoc. cbn [map app].
    split; [reflexivity|]. split; [simpl; now rewrite Hlen|].
    intros L. constructor; auto.
Qed.

(** The whole of [generate_conflict_scenarios]: one snapshot, one
    capability profile, the loop, the frame. *)
Lemma generate_conflict_scenarios_run (num_scenarios : Z) (s : S) :
  exists profile s1 capabilities s2 k ds s3,
    generate_weapon_effectiveness s = (Ok profile, s1) /\
    generate_national_capabilities s1 = (Ok capabilities, s2) /\
    snapshot_of profile k /\
    scenario_loop profile capabilities num_scenarios [] s2
      = (Ok (map (record_of k) ds), s3) /\
    generate_conflict_scenarios num_scenarios s
      = (Ok (pd_DataFrame (map (record_of k) ds)), s3) /\
    List.length ds = range_len num_scenarios /\
    (RandomStateLaws R ->
       profile_within weapon_intervals profile /\ Forall draws_in_range ds).
Proof.
  destruct (generate_weapon_effectiveness_run s) as (profile & s1 & E1 & (k & Hk) & Hp).
  destruct (generate_national_capabilities_run s1) as (capabilities & s2 & E2).
  destruct (scenario_loop_run profile k capabilities num_scenarios Hk [] s2)
    as (ds & s3 & E3 & Hlen & Hds).
  cbn [app] in E3.
  exists profile, s1, capabilities, s2, k, ds, s3.
  repeat (split; [assumption|]). split; [|split; [assumption | auto]].
  unfold generate_conflict_scenarios, bind. rewrite E1, E2, E3. reflexivity.
Qed.

End Pipeline.

(** The frame of records built by the loop. *)
Lemma pd_DataFrame_records (k : snapshot) (ds : list draws) :
  ds <> [] ->
  pd_DataFrame (map (record_of k) ds)
  = {| columns := scenario_columns;
       data := map (fun d => row_of (record_of k d)) ds |}.
Proof.
  intros Hne.
  rewrite (pd_DataFrame_uniform scenario_columns).
  - now rewrite map_map.
  - apply scenario_columns_NoDup.
  - destruct ds; [congruence | discriminate].
  - apply Forall_forall. intros r Hr. apply in_map_iff in Hr as (d & <- & _).
    apply keys_record_of.
Qed.

(* ================================================================= *)
(** ** MT19937 keeps the contract of the generator *)

Module MT19937Facts.
Import MT19937.

Lemma u32_range (z : Z) : 0 <= u32 z < 2 ^ 32.
Proof.
  unfold u32. change 0xffffffff with (Z.ones 32).
  rewrite Z.land_ones by lia. apply Z.mod_pos_bound. lia.
Qed.

Lemma mt19937_next_range (st : mt19937_state) :
  0 <= fst (mt19937_next st) < 2 ^ 32.
Proof. unfold mt19937_next. cbn [fst]. apply u32_range. Qed.

Lemma lor_below_pow2 (a b n : Z) :
  0 <= n -> 0 <= a < 2 ^ n -> 0 <= b < 2 ^ n -> 0 <= Z.lor a b < 2 ^ n.
Proof.
  intros Hn Ha Hb. split; [apply Z.lor_nonneg; lia|].
  destruct (Z.eq_dec n 0) as [->|Hn0].
  { assert (a = 0) as -> by (simpl in Ha; lia).
    assert (b = 0) as -> by (simpl in Hb; lia). reflexivity. }
  destruct (Z.eq_dec (Z.lor a b) 0) as [E|E]; [rewrite E; lia|].
  assert (Hpos : 0 < Z.lor a b)
    by (assert (0 <= Z.lor a b) by (apply Z.lor_nonneg; lia); lia).
  apply Z.log2_lt_pow2; [assumption|].
  rewrite Z.log2_lor by lia.
  apply Z.max_lub_lt.
  - destruct (Z.eq_dec a 0) as [->|]; [simpl; lia|].
    apply (proj1 (Z.log2_lt_pow2 a n ltac:(lia))). lia.
  - destruct (Z.eq_dec b 0) as [->|]; [simpl; lia|].
    apply (proj1 (Z.log2_lt_pow2 b n ltac:(lia))). lia.
Qed.

Lemma mt19937_next64_range (st : mt19937_state) :
  0 <= fst (mt19937_next64 st) < 2 ^ 64.
Proof.
  unfold mt19937_next64.
  pose proof (mt19937_next_range st) as Hhi.
  destruct (mt19937_next st) as [hi st1]. cbn [fst] in Hhi.
  pose proof (mt19937_next_range st1) as Hlo.
  destruct (mt19937_next st1) as [lo st2]. cbn [fst] in Hlo |- *.
  apply lor_below_pow2; [lia | | lia].
  rewrite Z.shiftl_mul_pow2 by lia. nia.
Qed.

Lemma mt19937_next_double_range (st : mt19937_state) :
  exists u, fst (mt19937_next_double st) = Finite u /\ (0 <= u)%Q /\ (u < 1)%Q.
Proof.
  unfold mt19937_next_double.
  pose proof (mt19937_next_range st) as Ha.
  destruct (mt19937_next st) as [a st1]. cbn [fst] in Ha.
  pose proof (mt19937_next_range st1) as Hb.
  destruct (mt19937_next st1) as [b st2]. cbn [fst] in Hb |- *.
  assert (Ha' : 0 <= Z.shiftr a 5 < 2 ^ 27).
  { rewrite Z.shiftr_div_pow2 by lia. split.
    - apply Z.div_pos; lia.
    - apply Z.div_lt_upper_bound; lia. }
  assert (Hb' : 0 <= Z.shiftr b 6 < 2 ^ 26).
  { rewrite Z.shiftr_div_pow2 by lia. split.
    - apply Z.div_pos; lia.
    - apply Z.div_lt_upper_bound; lia. }
  eexists. split; [reflexivity|].
  unfold Qle, Qlt. cbn [Qnum Qden]. lia.
Qed.

Lemma bounded_masked_range (next : mt19937_state -> Z * mt19937_state)
    (fuel : nat) (rng mask : Z) :
  (forall st, 0 <= fst (next st)) ->
  forall st v st',
    bounded_masked next fuel rng mask st = Some (v, st') -> 0 <= v <= rng.
Proof.
  intros Hnext. induction fuel as [|fuel IH]; intros st v st' H; [discriminate|].
  cbn [bounded_masked] in H. specialize (Hnext st).
  destruct (next st) as [w st1]. cbn [fst] in Hnext.
  destruct (rng <? Z.land w mask) eqn:E.
  - eapply IH. exact H.
  - injection H as <- <-. apply Z.ltb_ge in E. split; [|assumption].
    apply Z.land_nonneg. now left.
Qed.

Lemma masked_or_zero_range (next : mt19937_state -> Z * mt19937_state)
    (rng mask : Z) (st : mt19937_state) :
  (forall st, 0 <= fst (next st)) -> 0 <= rng ->
  0 <= fst (masked_or_zero (bounded_masked next rejection_fuel rng mask st) st)
    <= rng.
Proof.
  intros Hnext Hrng.
  destruct (bounded_masked next rejection_fuel rng mask st) as [[v st']|] eqn:E.
  - cbn [masked_or_zero fst]. eapply bounded_masked_range; eassumption.
  - cbn [masked_or_zero fst]. lia.
Qed.

Lemma random_bounded_uint64_range (rng : Z) (st : mt19937_state) :
  0 <= rng -> 0 <= fst (random_bounded_uint64 rng st) <= rng.
Proof.
  intros Hrng. unfold random_bounded_uint64.
  destruct (rng =? 0) eqn:E0; [cbn [fst]; lia|].
  destruct (rng <=? 0xFFFFFFFF) eqn:E32.
  - destruct (rng =? 0xFFFFFFFF) eqn:Emax.
    + apply Z.eqb_eq in Emax. pose proof (mt19937_next_range st). lia.
    + apply masked_or_zero_range; [|assumption].
      intros st0. apply mt19937_next_range.
  - destruct (rng =? 0xFFFFFFFFFFFFFFFF) eqn:Emax.
    + apply Z.eqb_eq in Emax. pose proof (mt19937_next64_range st). lia.
    + apply masked_or_zero_range; [|assumption].
      intros st0. apply mt19937_next64_range.
Qed.

Lemma mt19937_laws : RandomStateLaws mt19937.
Proof.
  constructor.
  - exact mt19937_next_double_range.
  - exact random_bounded_uint64_range.
Qed.

(** The first words of the reference implementation for its default seed. *)
Example mt19937_reference_words :
  draw_many 5 mt19937_next (mt19937_seed 5489)
  = [3499211612; 581869302; 3890346734; 3586334585; 545404204].
Proof. vm_compute. reflexivity. Qed.

(** [np.random.seed(42); np.random.random_sample()] prints
    [0.3745401188473625]. *)
Example seed_42_first_sample :
  exists u, fst (mt19937_next_double (mt19937_seed 42)) = Finite u /\
            (0.37454011884736245 < u)%Q /\ (u < 0.37454011884736255)%Q.
Proof. eexists. split; [vm_compute; reflexivity|]. split; reflexivity. Qed.

(** [np.random.seed(42); np.random.randint(0, 100, 5)] is
    [[51, 92, 14, 71, 60]]: the masked rejection discards the words
    that give 102 and 106. *)
Example seed_42_randint :
  draw_many 5 (random_bounded_uint64 99) (mt19937_seed 42) = [51; 92; 14; 71; 60].
Proof. vm_compute. reflexivity. Qed.

End MT19937Facts.

(** The rows of the table of the loop, read back as records. *)
Lemma df_records_loop (k : snapshot) (ds : list draws) :
  df_records (pd_DataFrame (map (record_of k) ds))
  = map (fun d => cells (record_of k d)) ds.
Proof.
  destruct ds as [|d ds]; [reflexivity|].
  rewrite pd_DataFrame_records by discriminate.
  unfold df_records. cbn [columns data]. rewrite map_map.
  apply map_ext. intros d'. reflexivity.
Qed.

(** What holds of the record of every iteration holds of every row. *)
Lemma rows_of_loop (P : dict (option value) -> Prop) (k : snapshot)
    (ds : list draws) :
  (forall d, In d ds -> P (cells (record_of k d))) ->
  Forall P (df_records (pd_DataFrame (map (record_of k) ds))).
Proof.
  intros H. rewrite df_records_loop. apply Forall_forall.
  intros r Hr. apply in_map_iff in Hr as (d & <- & Hd). now apply H.
Qed.

(* ================================================================= *)
(** ** The scenario count *)

Section Count.

Context {S : Type} {R : RandomState S}.

(** C1, as the code has it: for every count that is negative or zero,
    [generate_conflict_scenarios] succeeds and returns the empty table;
    the loop over [range(count)] runs no iteration and no argument check
    exists, so a negative count is not an error. *)
Theorem nonpositive_count_empty_table (count : Z) (s : S) :
  count <= 0 ->
  exists s', generate_conflict_scenarios count s = (Ok empty_frame, s').
Proof.
  intros Hle.
  destruct (generate_conflict_scenarios_run count s)
    as (profile & s1 & capabilities & s2 & k & ds & s3 & _ & _ & _ & _ & E & Hlen & _).
  assert (Hds : ds = []).
  { destruct ds; [reflexivity|]. unfold range_len in Hlen.
    simpl in Hlen. lia. }
  subst ds. exists s3. exact E.
Qed.

(** C2: for every count [N >= 0] the function returns a table of exactly
    [N] records, and the records are in generation order: the table for
    [N + 1] is the table for [N] followed by the record that one more
    iteration builds from the state the [N] iterations left. *)
Theorem scenario_table_cardinality (N : Z) (s : S) :
  0 <= N ->
  exists df s',
    generate_conflict_scenarios N s = (Ok df, s') /\
    Z.of_nat (df_len df) = N /\
    exists profile s1 record s'' df',
      generate_weapon_effectiveness s = (Ok profile, s1) /\
      scenario profile s' = (Ok record, s'') /\
      generate_conflict_scenarios (N + 1) s = (Ok df', s'') /\
      data df' = (data df ++ [row_of record])%list.
Proof.
  intros HN.
  destruct (generate_conflict_scenarios_run N s)
    as (profile & s1 & capabilities & s2 & k & ds & s3 & E1 & E2 & Hk & E3 & E & Hlen & _).
  exists (pd_DataFrame (map (record_of k) ds)), s3.
  split; [exact E|]. split.
  { rewrite df_len_pd_DataFrame, length_map, Hlen. unfold range_len. lia. }
  destruct (scenario_run profile k s3 Hk) as (d & s4 & E4 & _).
  exists profile, s1, (record_of k d), s4,
    (pd_DataFrame (map (record_of k) (ds ++ [d]))).
  split; [exact E1|]. split; [exact E4|]. split.
  - unfold generate_conflict_scenarios, bind. rewrite E1, E2.
    unfold scenario_loop, range_len in *.
    replace (Z.to_nat (N + 1)) with (Datatypes.S (Z.to_nat N)) by lia.
    rewrite for_range_succ. unfold bind at 1. rewrite E3.
    unfold bind. rewrite E4. unfold ret. rewrite map_app. reflexivity.
  - rewrite pd_DataFrame_records by (destruct ds; discriminate).
    cbn [data]. rewrite map_app. cbn [map]. f_equal.
    destruct ds as [|d0 ds]; [reflexivity|].
    rewrite pd_DataFrame_records by discriminate. reflexivity.
Qed.

End Count.

(** C1 as stated fails: at count [-1] (generator seeded with 42) the
    function returns the empty table, it does not fail. *)
Lemma negative_count_counterexample :
  fst (generate_conflict_scenarios (-1) (MT19937.mt19937_seed 42))
    = Ok empty_frame /\
  ~ (exists e, fst (generate_conflict_scenarios (-1) (MT19937.mt19937_seed 42))
               = Raise e).
Proof.
  assert (E : fst (generate_conflict_scenarios (-1) (MT19937.mt19937_seed 42))
              = Ok empty_frame) by (vm_compute; reflexivity).
  split; [exact E|]. intros (e & He). rewrite E in He. discriminate.
Qed.

Lemma nonpositive_count_empty_table_witness :
  -1 <= 0 /\
  exists s', generate_conflict_scenarios (-1) (MT19937.mt19937_seed 42)
             = (Ok empty_frame, s').
Proof.
  split; [lia|].
  apply (nonpositive_count_empty_table (-1) (MT19937.mt19937_seed 42)). lia.
Defined.

Lemma scenario_table_cardinality_witness :
  0 <= 3 /\
  exists df s',
    generate_conflict_scenarios 3 (MT19937.mt19937_seed 42) = (Ok df, s') /\
    Z.of_nat (df_len df) = 3 /\
    exists profile s1 record s'' df',
      generate_weapon_effectiveness (MT19937.mt19937_seed 42) = (Ok profile, s1) /\
      scenario profile s' = (Ok record, s'') /\
      generate_conflict_scenarios (3 + 1) (MT19937.mt19937_seed 42) = (Ok df', s'') /\
      data df' = (data df ++ [row_of record])%list.
Proof.
  split; [lia|].
  apply (scenario_table_cardinality 3 (MT19937.mt19937_seed 42)). lia.
Defined.

(* ================================================================= *)
(** ** The weapon snapshot and its copies *)

Section Snapshot.

Context {S : Type} {R : RandomState S}.

Lemma copies_of_record (profile : dict (dict float)) (k : snapshot) (d : draws) :
  snapshot_of profile k ->
  copies profile "tanks" "kill_probability"
    "tank_effectiveness_A" "tank_effectiveness_B" (cells (record_of k d)) /\
  copies profile "artillery" "kill_probability"
    "artillery_effectiveness_A" "artillery_effectiveness_B" (cells (record_of k d)) /\
  copies profile "fighter_jets" "kill_probability"
    "jet_effectiveness_A" "jet_effectiveness_B" (cells (record_of k d)) /\
  copies profile "cyber_attacks" "infrastructure_disruption_probability"
    "cyber_disruption_potential_A" "cyber_disruption_potential_B"
    (cells (record_of k d)).
Proof.
  intros (Ht & Ha & Hj & Hc). unfold copies, field_is.
  repeat split; eexists; (split; [eassumption | split; reflexivity]).
Qed.

(** C3: in the table of every run, each row has its A-side and its B-side
    effectiveness field equal to one and the same metric of the single
    weapon snapshot of that run: tanks, artillery and fighter jets by
    their [kill_probability], cyber disruption by
    [infrastructure_disruption_probability]. All rows therefore agree. *)
Theorem effectiveness_fields_copy_snapshot (count : Z) (s : S) :
  exists profile s1 df s',
    generate_weapon_effectiveness s = (Ok profile, s1) /\
    generate_conflict_scenarios count s = (Ok df, s') /\
    Forall (fun r =>
              copies profile "tanks" "kill_probability"
                "tank_effectiveness_A" "tank_effectiveness_B" r /\
              copies profile "artillery" "kill_probability"
                "artillery_effectiveness_A" "artillery_effectiveness_B" r /\
              copies profile "fighter_jets" "kill_probability"
                "jet_effectiveness_A" "jet_effectiveness_B" r /\
              copies profile "cyber_attacks" "infrastructure_disruption_probability"
                "cyber_disruption_potential_A" "cyber_disruption_potential_B" r)
           (df_records df).
Proof.
  destruct (generate_conflict_scenarios_run count s)
    as (profile & s1 & capabilities & s2 & k & ds & s3 & E1 & _ & Hk & _ & E & _ & _).
  exists profile, s1, (pd_DataFrame (map (record_of k) ds)), s3.
  split; [exact E1|]. split; [exact E|].
  apply rows_of_loop. intros d _. now apply copies_of_record.
Qed.

(** C4, as the code has it: whatever the state of the generator,
    [generate_weapon_effectiveness] returns a profile with the categories
    and metrics of the interval table and each value inside its closed
    interval in binary64: [low <= value <= high] as the program compares
    floats, the two bounds being the binary64 numbers nearest to the
    declared decimals. *)
Theorem weapon_effectiveness_within_intervals (s : S) :
  RandomStateLaws R ->
  exists profile s',
    generate_weapon_effectiveness s = (Ok profile, s') /\
    profile_within weapon_intervals profile.
Proof.
  intros L.
  destruct (generate_weapon_effectiveness_run s) as (profile & s' & E & _ & Hp).
  exists profile, s'. split; [exact E | exact (Hp L)].
Qed.

(** C6: the function calls [generate_national_capabilities] once, between
    the snapshot and the loop, and the loop does not read what the call
    returned: with any other capability profile in its place the loop, and
    so the function, gives the same outcome from the same state. *)
Theorem capabilities_not_consumed (count : Z) (s : S) :
  exists profile s1 capabilities s2,
    generate_weapon_effectiveness s = (Ok profile, s1) /\
    generate_national_capabilities s1 = (Ok capabilities, s2) /\
    (forall other : dict (dict value),
       generate_conflict_scenarios count s
       = bind (scenario_loop profile other count [])
              (fun scenarios => ret (pd_DataFrame scenarios)) s2) /\
    (forall (c1 c2 : dict (dict value)) scenarios (t : S),
       scenario_loop profile c1 count scenarios t
       = scenario_loop profile c2 count scenarios t).
Proof.
  destruct (generate_weapon_effectiveness_run s) as (profile & s1 & E1 & _ & _).
  destruct (generate_national_capabilities_run s1) as (capabilities & s2 & E2).
  exists profile, s1, capabilities, s2.
  split; [exact E1|]. split; [exact E2|]. split.
  - intros other. unfold generate_conflict_scenarios.
    unfold bind at 1. rewrite E1. unfold bind at 1. rewrite E2. reflexivity.
  - reflexivity.
Qed.

End Snapshot.

(** C4 as stated fails against the decimal bounds. In the state whose
    words are all 0 every sample is 0 and [tanks.accuracy] is the float
    of the literal [0.6], which is below 6/10; in the state whose words
    are all [0xffffffff] every sample is [1 - 2^-53] and
    [fighter_jets.kill_probability] is the float of the literal [0.8],
    which is above 8/10. Both values pass the comparison with the
    literal that the program can make. *)
Lemma weapon_interval_counterexample :
  (exists profile s' q,
     generate_weapon_effectiveness (MT19937.constant_state 0) = (Ok profile, s') /\
     lookup2 "tanks" "accuracy" profile = Some (Finite q) /\
     (q < 0.6)%Q /\
     fle (lit 0.6) (Finite q) = true) /\
  (exists profile s' q,
     generate_weapon_effectiveness (MT19937.constant_state 0x12dd9bb3)
       = (Ok profile, s') /\
     lookup2 "fighter_jets" "kill_probability" profile = Some (Finite q) /\
     (0.8 < q)%Q /\
     fle (Finite q) (lit 0.8) = true).
Proof.
  split.
  - eexists. eexists. eexists. split; [vm_compute; reflexivity|].
    split; [reflexivity|]. split; [reflexivity | vm_compute; reflexivity].
  - eexists. eexists. eexists. split; [vm_compute; reflexivity|].
    split; [reflexivity|]. split; [reflexivity | vm_compute; reflexivity].
Qed.

Lemma weapon_effectiveness_within_intervals_witness :
  RandomStateLaws MT19937.mt19937 /\
  exists profile s',
    generate_weapon_effectiveness (MT19937.mt19937_seed 42) = (Ok profile, s') /\
    profile_within weapon_intervals profile.
Proof.
  split; [exact MT19937Facts.mt19937_laws|].
  apply (weapon_effectiveness_within_intervals (MT19937.mt19937_seed 42)).
  exact MT19937Facts.mt19937_laws.
Defined.

(* ================================================================= *)
(** ** The fields of a scenario record *)

Section Fields.

Context {S : Type} {R : RandomState S}.

(** C7, as the code has it: in every row [conflict_duration_days] is a
    float drawn by [uniform(30, 180)], so it lies in [[30, 180]] (it need
    not be a whole number), and [economic_damage_billion_usd] lies in
    [[50, 500]]. *)
Theorem duration_and_damage_in_range (count : Z) (s : S) :
  RandomStateLaws R ->
  exists df s',
    generate_conflict_scenarios count s = (Ok df, s') /\
    Forall (fun r =>
              (exists x, field_is "conflict_duration_days" x r /\
                         within (interval 30 180) x) /\
              (exists y, field_is "economic_damage_billion_usd" y r /\
                         within (interval 50 500) y))
           (df_records df).
Proof.
  intros L.
  destruct (generate_conflict_scenarios_run count s)
    as (profile & s1 & capabilities & s2 & k & ds & s3 & _ & _ & _ & _ & E & _ & H).
  destruct (H L) as [_ Hds].
  exists (pd_DataFrame (map (record_of k) ds)), s3. split; [exact E|].
  apply rows_of_loop. intros d Hd.
  rewrite Forall_forall in Hds.
  destruct (Hds d Hd) as (_ & _ & _ & _ & Hdur & _ & _ & _ & Hdmg).
  split; [exists (duration d) | exists (damage d)]; (split; [reflexivity | assumption]).
Qed.

(** C9: in every row [initial_aggressor] is the string [Nation_A] or the
    string [Nation_B]. *)
Theorem initial_aggressor_is_a_nation (count : Z) (s : S) :
  RandomStateLaws R ->
  exists df s',
    generate_conflict_scenarios count s = (Ok df, s') /\
    Forall (fun r =>
              dict_get "initial_aggressor" r = Some (Some (VStr "Nation_A")) \/
              dict_get "initial_aggressor" r = Some (Some (VStr "Nation_B")))
           (df_records df).
Proof.
  intros L.
  destruct (generate_conflict_scenarios_run count s)
    as (profile & s1 & capabilities & s2 & k & ds & s3 & _ & _ & _ & _ & E & _ & H).
  destruct (H L) as [_ Hds].
  exists (pd_DataFrame (map (record_of k) ds)), s3. split; [exact E|].
  apply rows_of_loop. intros d Hd.
  rewrite Forall_forall in Hds.
  destruct (Hds d Hd) as (_ & _ & _ & Hag & _).
  change (dict_get "initial_aggressor" (cells (record_of k d)))
    with (Some (Some (VStr (aggressor d)))).
  destruct Hag as [-> | ->]; [left | right]; reflexivity.
Qed.

(** C10, as the code has it: every row of every table has the same 17
    named fields, those of the dict display in its order, each with a
    value: none is missing, none is extra. *)
Theorem scenario_schema (count : Z) (s : S) :
  exists df s',
    generate_conflict_scenarios count s = (Ok df, s') /\
    Forall (fun r =>
              keys r = scenario_columns /\
              Forall (fun cell => exists v, snd cell = Some v) r)
           (df_records df) /\
    List.length scenario_columns = 17%nat /\
    NoDup scenario_columns.
Proof.
  destruct (generate_conflict_scenarios_run count s)
    as (profile & s1 & capabilities & s2 & k & ds & s3 & _ & _ & _ & _ & E & _ & _).
  exists (pd_DataFrame (map (record_of k) ds)), s3. split; [exact E|].
  split; [|split; [reflexivity | exact scenario_columns_NoDup]].
  apply rows_of_loop. intros d _. split; [reflexivity|].
  unfold cells, record_of. cbn [map fst snd].
  repeat (constructor; [eexists; reflexivity|]). constructor.
Qed.

End Fields.

Lemma duration_and_damage_in_range_witness :
  RandomStateLaws MT19937.mt19937 /\
  exists df s',
    generate_conflict_scenarios 3 (MT19937.mt19937_seed 42) = (Ok df, s') /\
    Forall (fun r =>
              (exists x, field_is "conflict_duration_days" x r /\
                         within (interval 30 180) x) /\
              (exists y, field_is "economic_damage_billion_usd" y r /\
                         within (interval 50 500) y))
           (df_records df).
Proof.
  split; [exact MT19937Facts.mt19937_laws|].
  apply (duration_and_damage_in_range 3 (MT19937.mt19937_seed 42)).
  exact MT19937Facts.mt19937_laws.
Defined.

Lemma initial_aggressor_is_a_nation_witness :
  RandomStateLaws MT19937.mt19937 /\
  exists df s',
    generate_conflict_scenarios 3 (MT19937.mt19937_seed 42) = (Ok df, s') /\
    Forall (fun r =>
              dict_get "initial_aggressor" r = Some (Some (VStr "Nation_A")) \/
              dict_get "initial_aggressor" r = Some (Some (VStr "Nation_B")))
           (df_records df).
Proof.
  split; [exact MT19937Facts.mt19937_laws|].
  apply (initial_aggressor_is_a_nation 3 (MT19937.mt19937_seed 42)).
  exact MT19937Facts.mt19937_laws.
Defined.

(** A rational with numerator [n] and denominator [d] is whole only when
    [d] divides [n]. *)
Lemma integral_divides (q : Q) :
  integral (Finite q) -> (Qnum q mod Zpos (Qden q) = 0)%Z.
Proof.
  intros (z & Hz). unfold Qeq in Hz. cbn [inject_Z Qnum Qden] in Hz.
  rewrite Z.mul_1_r in Hz. rewrite Hz. apply Z_mod_mult.
Qed.

(** C7 as stated fails: with seed 42 the first record has
    [conflict_duration_days = 30 + (180 - 30) * u] for the sample
    [u = 8856156501877228 / 2^53], the binary64 number
    177.48463287101822, which is no integer. *)
Lemma duration_not_integral_counterexample :
  exists df x,
    table_of (simulate 42 1 (MT19937.mt19937_seed 0)) = Some df /\
    df_column "conflict_duration_days" df = Some [Some (VFloat x)] /\
    x = random_uniform (lit 30) (fsub (lit 180) (lit 30))
          (Finite (8856156501877228 # 9007199254740992)) /\
    x = Finite (195146417593239 # 1099511627776) /\
    ~ integral x.
Proof.
  eexists. eexists. split; [vm_compute; reflexivity|].
  split; [vm_compute; reflexivity|]. split; [vm_compute; reflexivity|].
  split; [reflexivity|].
  intros H. apply integral_divides in H. vm_compute in H. discriminate.
Qed.

(** C10 as stated fails: the record of a run with seed 42 has 17 named
    fields, not 16. *)
Lemma schema_size_counterexample :
  exists df r,
    table_of (simulate 42 1 (MT19937.mt19937_seed 0)) = Some df /\
    df_records df = [r] /\
    List.length (keys r) = 17%nat /\
    List.length (keys r) <> 16%nat.
Proof.
  eexists. eexists. split; [vm_compute; reflexivity|].
  split; [vm_compute; reflexivity|]. split; [reflexivity | discriminate].
Qed.

(* ================================================================= *)
(** ** Seeds and reproducibility *)

(** [np.random.seed] replaces the global state, whatever it was. *)
Lemma simulate_forgets_state {S : Type} {R : RandomState S}
    (seed count : Z) (g1 g2 : S) :
  fst (simulate seed count g1) = fst (simulate seed count g2).
Proof.
  unfold simulate, init, np_random_seed, bind.
  destruct ((seed <? 0) || (4294967295 <? seed)); reflexivity.
Qed.

(** C5: two runs of the pipeline with the same seed and the same count
    return the same table, whatever state the global generator was in
    before each run, in particular when the second run follows the first;
    and the seeds 42 and 43 both return a table (one scenario each) and
    the two tables differ. *)
Theorem simulate_reproducible_and_seed_sensitive :
  (forall (S : Type) (R : RandomState S) (seed count : Z) (g1 g2 : S),
     fst (simulate seed count g1) = fst (simulate seed count g2)) /\
  (forall (S : Type) (R : RandomState S) (seed count : Z) (g : S),
     fst (simulate seed count (snd (simulate seed count g)))
     = fst (simulate seed count g)) /\
  (forall g : MT19937.mt19937_state,
     exists df1 df2 : DataFrame,
       42 <> 43 /\
       table_of (simulate 42 1 g) = Some df1 /\
       table_of (simulate 43 1 g) = Some df2 /\
       df1 <> df2).
Proof.
  split; [|split].
  - intros S R seed count g1 g2. apply simulate_forgets_state.
  - intros S R seed count g. apply simulate_forgets_state.
  - intros g. unfold table_of.
    rewrite (simulate_forgets_state 42 1 g (MT19937.mt19937_seed 0)).
    rewrite (simulate_forgets_state 43 1 g (MT19937.mt19937_seed 0)).
    eexists. eexists. split; [lia|].
    split; [vm_compute; reflexivity|]. split; [vm_compute; reflexivity|].
    intros H.
    apply (f_equal (df_column "conflict_duration_days")) in H.
    vm_compute in H. discriminate.
Qed.

(* ================================================================= *)
(** ** Bounds handed to the draw operations *)

Section Bounds.

Context {S : Type} {R : RandomState S}.

(** C8, as the code has it: [uniform] does not compare its bounds. It
    returns a value whenever the difference [high - low] is finite in
    binary64, reversed bounds included, and that value is between the
    bounds when the formula stays between them at the samples 0 and 1;
    it raises [OverflowError] exactly when the difference is not finite,
    which cannot happen while the exact difference is within the largest
    binary64 number. [randint] (bounds within int64) returns an integer of
    [[low, high)] when [low < high] and raises [ValueError] when
    [low >= high], equal bounds included. *)
Theorem draw_operations_on_bounds (s : S) :
  RandomStateLaws R ->
  (forall low high : float,
     (is_finite (fsub high low) = true ->
        exists v s',
          uniform low high s = (Ok v, s') /\
          (endpoints_within low high = true -> within (low, high) v)) /\
     (is_finite (fsub high low) = false ->
        uniform low high s
        = (Raise (OverflowError "Range exceeds valid bounds"), s))) /\
  (forall l h : Q,
     (- max_float <= h - l)%Q -> (h - l <= max_float)%Q ->
     is_finite (fsub (Finite h) (Finite l)) = true) /\
  (forall low high : Z,
     int64_min <= low -> high - 1 <= int64_max ->
     (low < high ->
        exists v s', randint low high s = (Ok v, s') /\ low <= v < high) /\
     (high <= low ->
        randint low high s = (Raise (ValueError "low >= high"), s))).
Proof.
  intros L. split; [|split].
  - intros low high. split.
    + intros Hfin. destruct (uniform_run low high s Hfin) as (v & s' & E & Hv).
      exists v, s'. split; [exact E | exact (Hv L)].
    + intros Hinf. unfold uniform. rewrite Hinf. reflexivity.
  - intros l h Hlo Hhi. now apply round64_finite.
  - intros low high Hlo Hhi. split.
    + intros Hlt. destruct (randint_run low high s Hlo Hhi Hlt) as (v & s' & E & Hv).
      exists v, s'. split; [exact E | exact (Hv L)].
    + intros Hle. now apply randint_empty_range.
Qed.

End Bounds.

Lemma draw_operations_on_bounds_witness :
  RandomStateLaws MT19937.mt19937 /\
  (forall low high : float,
     (is_finite (fsub high low) = true ->
        exists v s',
          uniform low high (MT19937.mt19937_seed 42) = (Ok v, s') /\
          (endpoints_within low high = true -> within (low, high) v)) /\
     (is_finite (fsub high low) = false ->
        uniform low high (MT19937.mt19937_seed 42)
        = (Raise (OverflowError "Range exceeds valid bounds"),
           MT19937.mt19937_seed 42))) /\
  (forall l h : Q,
     (- max_float <= h - l)%Q -> (h - l <= max_float)%Q ->
     is_finite (fsub (Finite h) (Finite l)) = true) /\
  (forall low high : Z,
     int64_min <= low -> high - 1 <= int64_max ->
     (low < high ->
        exists v s',
          randint low high (MT19937.mt19937_seed 42) = (Ok v, s') /\
          low <= v < high) /\
     (high <= low ->
        randint low high (MT19937.mt19937_seed 42)
        = (Raise (ValueError "low >= high"), MT19937.mt19937_seed 42))).
Proof.
  split; [exact MT19937Facts.mt19937_laws|].
  apply (draw_operations_on_bounds (MT19937.mt19937_seed 42)).
  exact MT19937Facts.mt19937_laws.
Defined.

(** C8 as stated fails: [uniform(1, 0)], with its bounds reversed, returns
    a value; [randint(5, 5)], with [low <= high], raises; and [uniform]
    between the two largest floats of opposite sign, with [low <= high],
    raises too, with an [OverflowError]. *)
Lemma draw_bounds_counterexample :
  (0 < 1)%Q /\
  is_ok (fst (uniform (lit 1) (lit 0) (MT19937.mt19937_seed 42))) = true /\
  5 <= 5 /\
  fst (randint 5 5 (MT19937.mt19937_seed 42)) = Raise (ValueError "low >= high") /\
  fle (Finite (- max_float)) (Finite max_float) = true /\
  fst (uniform (Finite (- max_float)) (Finite max_float) (MT19937.mt19937_seed 42))
  = Raise (OverflowError "Range exceeds valid bounds").
Proof.
  split; [reflexivity|]. split; [vm_compute; reflexivity|].
  split; [lia|]. split; [vm_compute; reflexivity|].
  split; vm_compute; reflexivity.
Qed.

(* ================================================================= *)
(** ** An end-to-end run *)

(** Seed 42 and three scenarios: a table of three rows over the 17
    columns, with the aggressors that the three [choice] draws pick. *)
Example seed_42_three_scenarios :
  exists df,
    table_of (simulate 42 3 (MT19937.mt19937_seed 0)) = Some df /\
    df_len df = 3%nat /\
    columns df = scenario_columns /\
    df_column "initial_aggressor" df
    = Some [Some (VStr "Nation_A"); Some (VStr "Nation_B"); Some (VStr "Nation_B")].
Proof.
  eexists. split; [vm_compute; reflexivity|].
  split; [reflexivity|]. split; reflexivity.
Qed.

(* ================================================================= *)
(** ** The float operations against the primitive binary64 numbers *)

(** On the primitive numbers the smallest sample gives [low] or more and
    the largest sample gives [high] or less, for the bounds of every
    [uniform] call of the program. *)
Example binary64_endpoints_within :
  forallb Binary64.endpoints_within Binary64.program_bounds = true.
Proof. vm_compute. reflexivity. Qed.

(** A literal that is no binary64 number denotes a neighbour of the
    decimal: the float of [0.6] is below 6/10, the float of [0.8] above
    8/10. *)
Example literals_are_rounded :
  lit 0.6 = Finite (5404319552844595 # 9007199254740992) /\
  (5404319552844595 # 9007199254740992 < 0.6)%Q /\
  lit 0.8 = Finite (3602879701896397 # 4503599627370496) /\
  (0.8 < 3602879701896397 # 4503599627370496)%Q.
Proof.
  split; [vm_compute; reflexivity|]. split; [reflexivity|].
  split; [vm_compute; reflexivity | reflexivity].
Qed.

(** For every pair of bounds of the program, [lit] gives the value of
    the primitive literal, and [random_uniform] the value of the
    primitive formula at the samples 0, 1/2 and [1 - 2^-53]. *)
Example uniform_agrees_with_primitive_floats :
  forallb Binary64.agrees (combine program_literals Binary64.program_bounds)
  = true.
Proof. vm_compute. reflexivity. Qed.

(** [fadd], [fsub] and [fmul] give the values of the primitive
    operations on 300 pseudo-random pairs of ordinary magnitude and on
    100 pairs whose exponents range over subnormals and overflow. *)
Example operations_agree_with_primitive_floats :
  Binary64.operations_agree 300 (-40) 64 42 = true /\
  Binary64.operations_agree 100 (-1100) 2048 7 = true.
Proof. split; vm_compute; reflexivity. Qed.

(* ================================================================= *)
(** ** The capability profile *)

Section Capabilities.

Context {S : Type} {R : RandomState S}.

(** X1: whatever the state of the generator,
    [generate_national_capabilities] returns a profile of exactly the two
    nations, each with its five metrics in source order:
    [military_personnel] an integer of [[500000, 1200000)] for Nation_A
    and of [[400000, 1000000)] for Nation_B, the other four metrics
    floats with [low <= value <= high] for the binary64 bounds of their
    [uniform] calls. *)
Theorem national_capabilities_within_ranges (s : S) :
  RandomStateLaws R ->
  exists capabilities s',
    generate_national_capabilities s = (Ok capabilities, s') /\
    capabilities_within capability_ranges capabilities.
Proof.
  intros L. unfold generate_national_capabilities. expose.
  do 2 (run_randint; expose; cbn [dict_set String.eqb Ascii.eqb Bool.eqb];
        do 4 (run_uniform; expose; cbn [dict_set String.eqb Ascii.eqb Bool.eqb])).
  eexists. eexists. split; [reflexivity|].
  unfold capabilities_within, capability_ranges.
  repeat first
    [ apply Forall2_cons | apply Forall2_nil | reflexivity
    | progress cbn [fst snd]
    | match goal with
      | H : _ -> _ -> within ?iv ?x |- in_range (FloatRange _ _) (VFloat ?x) =>
          apply H; [exact L | vm_compute; reflexivity]
      | H : _ -> _ <= ?n < _ |- in_range (IntRange _ _) (VInt ?n) => exact (H L)
      end
    | split ].
Qed.

End Capabilities.

Lemma national_capabilities_within_ranges_witness :
  RandomStateLaws MT19937.mt19937 /\
  exists capabilities s',
    generate_national_capabilities (MT19937.mt19937_seed 42)
      = (Ok capabilities, s') /\
    capabilities_within capability_ranges capabilities.
Proof.
  split; [exact MT19937Facts.mt19937_laws|].
  apply (national_capabilities_within_ranges (MT19937.mt19937_seed 42)).
  exact MT19937Facts.mt19937_laws.
Defined.

(* ================================================================= *)
(** ** The ranges of the fields of a row *)

(** A metric that the interval table declares is in the profile, inside
    its interval. *)
Lemma metrics_within_lookup (ms : dict (float * float)) (vs : dict float)
    (m : string) (iv : float * float) :
  Forall2 (fun miv mv => fst miv = fst mv /\ within (snd miv) (snd mv)) ms vs ->
  dict_get m ms = Some iv ->
  exists x, dict_get m vs = Some x /\ within iv x.
Proof.
  induction 1 as [|[m1 iv1] [m2 x2] ms vs [Hname Hin] _ IH]; intros Hget;
    [discriminate|].
  cbn [fst snd] in Hname, Hin. subst m2. cbn [dict_get] in Hget |- *.
  destruct (String.eqb m m1).
  - injection Hget as <-. exists x2. split; [reflexivity | assumption].
  - apply IH, Hget.
Qed.

Lemma profile_within_lookup (ivs : dict (dict (float * float)))
    (profile : dict (dict float)) (c m : string) (iv : float * float) :
  profile_within ivs profile ->
  lookup2 c m ivs = Some iv ->
  exists x, lookup2 c m profile = Some x /\ within iv x.
Proof.
  unfold profile_within, lookup2.
  induction 1 as [|[c1 ms] [c2 vs] ivs profile [Hname Hms] _ IH]; intros Hget;
    [discriminate|].
  cbn [fst snd] in Hname, Hms. subst c2. cbn [dict_get] in Hget |- *.
  destruct (String.eqb c c1).
  - eapply metrics_within_lookup; eassumption.
  - apply IH, Hget.
Qed.

Section Ranges.

Context {S : Type} {R : RandomState S}.

(** X2: in every row of every table the three conflict probabilities
    and the three casualty estimates are floats with
    [low <= value <= high] for the binary64 bounds of their own
    [uniform] draws. *)
Theorem drawn_fields_in_range (count : Z) (s : S) :
  RandomStateLaws R ->
  exists df s',
    generate_conflict_scenarios count s = (Ok df, s') /\
    Forall (fun r =>
              field_within "cyber_conflict_probability" (interval 0.2 0.5) r /\
              field_within "conventional_war_probability" (interval 0.3 0.6) r /\
              field_within "limited_engagement_probability" (interval 0.1 0.4) r /\
              field_within "estimated_military_casualties_A" (interval 5000 100000) r /\
              field_within "estimated_military_casualties_B" (interval 5000 100000) r /\
              field_within "estimated_civilian_casualties" (interval 10000 250000) r)
           (df_records df).
Proof.
  intros L.
  destruct (generate_conflict_scenarios_run count s)
    as (profile & s1 & capabilities & s2 & k & ds & s3 & _ & _ & _ & _ & E & _ & H).
  destruct (H L) as [_ Hds].
  exists (pd_DataFrame (map (record_of k) ds)), s3. split; [exact E|].
  apply rows_of_loop. intros d Hd.
  rewrite Forall_forall in Hds.
  destruct (Hds d Hd) as (H1 & H2 & H3 & _ & _ & H6 & H7 & H8 & _).
  unfold field_within, field_is.
  repeat split; eexists; (split; [reflexivity | assumption]).
Qed.

(** X3: in every row the eight effectiveness fields are floats with
    [low <= value <= high] for the binary64 bounds of the snapshot metric
    they copy: the literals 0.4 and 0.7 for tanks, 0.3 and 0.6 for
    artillery, 0.5 and 0.8 for jets and 0.4 and 0.7 for cyber disruption,
    on both sides. *)
Theorem effectiveness_fields_in_range (count : Z) (s : S) :
  RandomStateLaws R ->
  exists df s',
    generate_conflict_scenarios count s = (Ok df, s') /\
    Forall (fun r =>
              field_within "tank_effectiveness_A" (interval 0.4 0.7) r /\
              field_within "tank_effectiveness_B" (interval 0.4 0.7) r /\
              field_within "artillery_effectiveness_A" (interval 0.3 0.6) r /\
              field_within "artillery_effectiveness_B" (interval 0.3 0.6) r /\
              field_within "jet_effectiveness_A" (interval 0.5 0.8) r /\
              field_within "jet_effectiveness_B" (interval 0.5 0.8) r /\
              field_within "cyber_disruption_potential_A" (interval 0.4 0.7) r /\
              field_within "cyber_disruption_potential_B" (interval 0.4 0.7) r)
           (df_records df).
Proof.
  intros L.
  destruct (generate_conflict_scenarios_run count s)
    as (profile & s1 & capabilities & s2 & k & ds & s3 & _ & _ & Hk & _ & E & _ & H).
  destruct (H L) as [Hp _]. destruct Hk as (Ht & Ha & Hj & Hc).
  assert (Wt : within (interval 0.4 0.7) (tank_kill k)).
  { destruct (profile_within_lookup _ _ "tanks" "kill_probability" _ Hp eq_refl)
      as (x & Hx & Hw). rewrite Ht in Hx. now injection Hx as ->. }
  assert (Wa : within (interval 0.3 0.6) (artillery_kill k)).
  { destruct (profile_within_lookup _ _ "artillery" "kill_probability" _ Hp eq_refl)
      as (x & Hx & Hw). rewrite Ha in Hx. now injection Hx as ->. }
  assert (Wj : within (interval 0.5 0.8) (jet_kill k)).
  { destruct (profile_within_lookup _ _ "fighter_jets" "kill_probability" _ Hp eq_refl)
      as (x & Hx & Hw). rewrite Hj in Hx. now injection Hx as ->. }
  assert (Wc : within (interval 0.4 0.7) (cyber_disruption k)).
  { destruct (profile_within_lookup _ _ "cyber_attacks"
                "infrastructure_disruption_probability" _ Hp eq_refl)
      as (x & Hx & Hw). rewrite Hc in Hx. now injection Hx as ->. }
  exists (pd_DataFrame (map (record_of k) ds)), s3. split; [exact E|].
  apply rows_of_loop. intros d _.
  unfold field_within, field_is.
  repeat split; eexists; (split; [reflexivity | assumption]).
Qed.

End Ranges.

Lemma drawn_fields_in_range_witness :
  RandomStateLaws MT19937.mt19937 /\
  exists df s',
    generate_conflict_scenarios 2 (MT19937.mt19937_seed 42) = (Ok df, s') /\
    Forall (fun r =>
              field_within "cyber_conflict_probability" (interval 0.2 0.5) r /\
              field_within "conventional_war_probability" (interval 0.3 0.6) r /\
              field_within "limited_engagement_probability" (interval 0.1 0.4) r /\
              field_within "estimated_military_casualties_A" (interval 5000 100000) r /\
              field_within "estimated_military_casualties_B" (interval 5000 100000) r /\
              field_within "estimated_civilian_casualties" (interval 10000 250000) r)
           (df_records df).
Proof.
  split; [exact MT19937Facts.mt19937_laws|].
  apply (drawn_fields_in_range 2 (MT19937.mt19937_seed 42)).
  exact MT19937Facts.mt19937_laws.
Defined.

Lemma effectiveness_fields_in_range_witness :
  RandomStateLaws MT19937.mt19937 /\
  exists df s',
    generate_conflict_scenarios 2 (MT19937.mt19937_seed 42) = (Ok df, s') /\
    Forall (fun r =>
              field_within "tank_effectiveness_A" (interval 0.4 0.7) r /\
              field_within "tank_effectiveness_B" (interval 0.4 0.7) r /\
              field_within "artillery_effectiveness_A" (interval 0.3 0.6) r /\
              field_within "artillery_effectiveness_B" (interval 0.3 0.6) r /\
              field_within "jet_effectiveness_A" (interval 0.5 0.8) r /\
              field_within "jet_effectiveness_B" (interval 0.5 0.8) r /\
              field_within "cyber_disruption_potential_A" (interval 0.4 0.7) r /\
              field_within "cyber_disruption_potential_B" (interval 0.4 0.7) r)
           (df_records df).
Proof.
  split; [exact MT19937Facts.mt19937_laws|].
  apply (effectiveness_fields_in_range 2 (MT19937.mt19937_seed 42)).
  exact MT19937Facts.mt19937_laws.
Defined.

(* ================================================================= *)
(** ** The columns of the table *)

Lemma frame_of_loop (k : snapshot) (ds : list draws) :
  pd_DataFrame (map (record_of k) ds)
  = {| columns := match ds with [] => [] | _ :: _ => scenario_columns end;
       data := map (fun d => row_of (record_of k d)) ds |}.
Proof.
  destruct ds as [|d ds]; [reflexivity|].
  now rewrite pd_DataFrame_records by discriminate.
Qed.

(** Each of the 17 fields of a record has a cell with a value. *)
Lemma record_cell_present (k : snapshot) (d : draws) (c : string) :
  In c scenario_columns ->
  exists v, dict_get c (cells (record_of k d)) = Some (Some v).
Proof.
  intros Hc. unfold scenario_columns in Hc. cbn [In] in Hc.
  repeat (destruct Hc as [<- | Hc]; [eexists; reflexivity|]).
  contradiction.
Qed.

Section Columns.

Context {S : Type} {R : RandomState S}.

(** X4: the columns of the returned table depend on the count. For a
    count of at least 1 they are the 17 field names in the order of the
    dict display; each of them can be read as a column of [count] cells
    that all hold a value, and no other name is a column. For a count of
    0 or less the table has no column at all, so no name can be read. *)
Theorem table_columns_by_count (count : Z) (s : S) :
  exists df s',
    generate_conflict_scenarios count s = (Ok df, s') /\
    (0 < count ->
       columns df = scenario_columns /\
       (forall c, In c scenario_columns ->
          exists col, df_column c df = Some col /\
                      List.length col = Z.to_nat count /\
                      Forall (fun cell => exists v, cell = Some v) col) /\
       (forall c, ~ In c scenario_columns -> df_column c df = None)) /\
    (count <= 0 ->
       columns df = [] /\ forall c, df_column c df = None).
Proof.
  destruct (generate_conflict_scenarios_run count s)
    as (profile & s1 & capabilities & s2 & k & ds & s3 & _ & _ & _ & _ & E & Hlen & _).
  exists (pd_DataFrame (map (record_of k) ds)), s3. split; [exact E|].
  unfold range_len in Hlen. split.
  - intros Hpos.
    assert (Hne : ds <> []) by (intros ->; simpl in Hlen; lia).
    split; [now rewrite pd_DataFrame_records|]. split.
    + intros c Hc. unfold df_column. rewrite df_records_loop.
      rewrite pd_DataFrame_records by assumption. cbn [columns].
      apply existsb_eqb_In in Hc. rewrite Hc.
      eexists. split; [reflexivity|]. split.
      * now rewrite !length_map.
      * rewrite map_map. apply Forall_forall. intros cell Hcell.
        apply in_map_iff in Hcell as (d & <- & _).
        apply existsb_eqb_In in Hc.
        destruct (record_cell_present k d c Hc) as (v & ->). now exists v.
    + intros c Hc. unfold df_column.
      rewrite pd_DataFrame_records by assumption. cbn [columns].
      destruct (existsb (String.eqb c) scenario_columns) eqn:Ex; [|reflexivity].
      apply existsb_eqb_In in Ex. contradiction.
  - intros Hle.
    assert (Hds : ds = []) by (destruct ds; [reflexivity | simpl in Hlen; lia]).
    subst ds. split; [reflexivity|]. intros c. reflexivity.
Qed.

End Columns.

(* ================================================================= *)
(** ** Longer runs extend shorter ones *)

Section Extension.

Context {S : Type} {R : RandomState S}.

(** [n + m] iterations are [n] iterations followed by [m] more. *)
Lemma for_range_add {A} (n m : nat) (body : A -> py A) (acc : A) (s : S) :
  for_range (n + m) body acc s
  = bind (for_range n body acc) (for_range m body) s.
Proof.
  revert acc s. induction n as [|n IH]; intros acc s.
  - reflexivity.
  - cbn [Nat.add for_range]. unfold bind. cbn beta.
    destruct (body acc s) as [[a|e] s']; [|reflexivity].
    rewrite IH. reflexivity.
Qed.

(** The loop treats the records it starts from as a prefix: what it
    appends and the state it leaves do not depend on them. *)
Lemma scenario_loop_prefix (profile : dict (dict float))
    (capabilities : dict (dict value)) (num_scenarios : Z)
    (scenarios : list (dict value)) (s : S) :
  scenario_loop profile capabilities num_scenarios scenarios s
  = match scenario_loop profile capabilities num_scenarios [] s with
    | (Ok more, s') => (Ok (scenarios ++ more)%list, s')
    | (Raise e, s') => (Raise e, s')
    end.
Proof.
  unfold scenario_loop. revert scenarios s.
  induction (range_len num_scenarios) as [|n IH]; intros scenarios s.
  - cbn [for_range]. unfold ret. now rewrite app_nil_r.
  - cbn [for_range]. unfold bind, ret. cbn beta.
    destruct (scenario profile s) as [[sc|e] s1]; [|reflexivity].
    rewrite (IH (scenarios ++ [sc])%list), (IH ([] ++ [sc])%list).
    destruct (for_range n _ [] s1) as [[more|e] s2]; [|reflexivity].
    cbn [app]. now rewrite <- app_assoc.
Qed.

(** X5: a run for [N + M] scenarios starts with the run for [N]: from
    the same generator state its table is the table for [N] followed by
    the [M] records that the loop produces from the state the shorter
    run left, so asking for more scenarios never changes the earlier
    rows. *)
Theorem longer_run_extends_shorter (N M : Z) (s : S) :
  0 <= N -> 0 <= M ->
  exists df s1 df' s2 profile capabilities more,
    generate_conflict_scenarios N s = (Ok df, s1) /\
    generate_conflict_scenarios (N + M) s = (Ok df', s2) /\
    scenario_loop profile capabilities M [] s1 = (Ok more, s2) /\
    data df' = (data df ++ map row_of more)%list /\
    firstn (Z.to_nat N) (data df') = data df /\
    List.length more = Z.to_nat M.
Proof.
  intros HN HM.
  destruct (generate_conflict_scenarios_run N s)
    as (profile & s1 & capabilities & s2 & k & ds & s3 & E1 & E2 & Hk & E3 & E & Hlen & _).
  destruct (scenario_loop_run profile k capabilities M Hk [] s3)
    as (ds' & s4 & E4 & Hlen' & _).
  cbn [app] in E4.
  exists (pd_DataFrame (map (record_of k) ds)), s3,
    (pd_DataFrame (map (record_of k) (ds ++ ds'))), s4,
    profile, capabilities, (map (record_of k) ds').
  assert (Hdata : data (pd_DataFrame (map (record_of k) (ds ++ ds')))
                  = (data (pd_DataFrame (map (record_of k) ds))
                     ++ map row_of (map (record_of k) ds'))%list).
  { rewrite !frame_of_loop. cbn [data]. now rewrite map_app, map_map. }
  split; [exact E|]. split.
  { unfold generate_conflict_scenarios, bind. rewrite E1, E2.
    assert (Eloop : scenario_loop profile capabilities (N + M) [] s2
                    = (Ok (map (record_of k) (ds ++ ds')), s4)).
    { pose proof (scenario_loop_prefix profile capabilities M
                    (map (record_of k) ds) s3) as Hpre.
      rewrite E4 in Hpre. unfold scenario_loop, range_len in *.
      replace (Z.to_nat (N + M)) with (Z.to_nat N + Z.to_nat M)%nat by lia.
      rewrite for_range_add. unfold bind at 1. rewrite E3, Hpre.
      now rewrite map_app. }
    rewrite Eloop. reflexivity. }
  split; [exact E4|]. split; [exact Hdata|]. split.
  - rewrite Hdata. rewrite frame_of_loop. cbn [data].
    unfold range_len in Hlen. rewrite <- Hlen.
    rewrite <- (length_map (fun d => row_of (record_of k d)) ds).
    now rewrite firstn_app, Nat.sub_diag, firstn_all, firstn_O, app_nil_r.
  - now rewrite length_map.
Qed.

End Extension.

Lemma longer_run_extends_shorter_witness :
  0 <= 1 /\ 0 <= 2 /\
  exists df s1 df' s2 profile capabilities more,
    generate_conflict_scenarios 1 (MT19937.mt19937_seed 42) = (Ok df, s1) /\
    generate_conflict_scenarios (1 + 2) (MT19937.mt19937_seed 42) = (Ok df', s2) /\
    scenario_loop profile capabilities 2 [] s1 = (Ok more, s2) /\
    data df' = (data df ++ map row_of more)%list /\
    firstn (Z.to_nat 1) (data df') = data df /\
    List.length more = Z.to_nat 2.
Proof.
  split; [lia|]. split; [lia|].
  apply (longer_run_extends_shorter 1 2 (MT19937.mt19937_seed 42)); lia.
Defined.

(* ================================================================= *)
(** ** The seed given to the constructor *)

Section Seed.

Context {S : Type} {R : RandomState S}.

(** X6: the constructor accepts the seeds of [[0, 2^32 - 1]] only. With
    such a seed the pipeline returns the table of [count] rows (none for
    a negative count) that [generate_conflict_scenarios] builds from the
    freshly seeded generator, and the state it leaves does not depend on
    the state before. With any other seed [np.random.seed] raises
    [ValueError]: no table is built and the generator is left as it was. *)
Theorem simulate_checks_seed (seed count : Z) (g : S) :
  (0 <= seed <= 4294967295 ->
     exists df s',
       simulate seed count g = (Ok df, s') /\
       generate_conflict_scenarios count (legacy_seed seed) = (Ok df, s') /\
       df_len df = Z.to_nat count) /\
  (seed < 0 \/ 4294967295 < seed ->
     simulate seed count g
     = (Raise (ValueError "Seed must be between 0 and 2**32 - 1"), g)).
Proof.
  unfold simulate, init, np_random_seed, bind. split.
  - intros Hseed.
    destruct (seed <? 0) eqn:E0; [apply Z.ltb_lt in E0; lia|].
    destruct (4294967295 <? seed) eqn:E1; [apply Z.ltb_lt in E1; lia|].
    cbn [orb].
    destruct (generate_conflict_scenarios_run count (legacy_seed seed))
      as (profile & s1 & capabilities & s2 & k & ds & s3 & _ & _ & _ & _ & E & Hlen & _).
    exists (pd_DataFrame (map (record_of k) ds)), s3.
    split; [exact E|]. split; [exact E|].
    now rewrite df_len_pd_DataFrame, length_map.
  - intros [Hneg | Hbig].
    + apply Z.ltb_lt in Hneg. rewrite Hneg. reflexivity.
    + apply Z.ltb_lt in Hbig. rewrite Hbig, orb_true_r. reflexivity.
Qed.

End Seed.

Lemma table_columns_by_count_witness :
  exists df s',
    generate_conflict_scenarios 2 (MT19937.mt19937_seed 42) = (Ok df, s') /\
    columns df = scenario_columns /\
    (exists col, df_column "conflict_duration_days" df = Some col /\
                 List.length col = 2%nat) /\
    df_column "military_personnel" df = None.
Proof.
  destruct (table_columns_by_count 2 (MT19937.mt19937_seed 42))
    as (df & s' & E & Hpos & _).
  destruct (Hpos ltac:(lia)) as (Hcols & Hin & Hout).
  exists df, s'. split; [exact E|]. split; [exact Hcols|]. split.
  - destruct (Hin "conflict_duration_days") as (col & Hcol & Hlen & _).
    + unfold scenario_columns. cbn [In]. tauto.
    + exists col. split; [exact Hcol | exact Hlen].
  - apply Hout. unfold scenario_columns. cbn [In].
    intros H. repeat (destruct H as [H | H]; [discriminate|]). exact H.
Defined.

(** The run of the script (seed 42, 1000 scenarios), and a seed that the
    constructor refuses. *)
Lemma simulate_checks_seed_witness :
  (exists df s',
     simulate default_seed default_num_scenarios (MT19937.mt19937_seed 0)
       = (Ok df, s') /\
     generate_conflict_scenarios default_num_scenarios (legacy_seed default_seed)
       = (Ok df, s') /\
     df_len df = Z.to_nat default_num_scenarios) /\
  simulate (-1) default_num_scenarios (MT19937.mt19937_seed 0)
  = (Raise (ValueError "Seed must be between 0 and 2**32 - 1"),
     MT19937.mt19937_seed 0).
Proof.
  split.
  - apply (simulate_checks_seed default_seed default_num_scenarios
             (MT19937.mt19937_seed 0)).
    unfold default_seed. lia.
  - apply (simulate_checks_seed (-1) default_num_scenarios
             (MT19937.mt19937_seed 0)).
    left. lia.
Defined.
